(** * A shallow embedding of the [pdf] package (parse.go, stream.go,
      serialize.go) and the properties of its parser, stream checker and
      serializer.

    Conventions of the embedding.
    - Go's [int], [int64] are [Z]; no value in this package comes near the
      64-bit bounds (XREF numbers go through a 32-bit [ParseInt], file
      offsets are bounded by the file size), so wrap-around is only written
      out for [byte] arithmetic, where it matters.
    - A [byte] is an [ascii]; a [[]byte] is a [list ascii]; a Go [string] is
      a [string].
    - A Go function returning [(T, error)] returns [res T]; a run-time panic
      (index out of range, nil dereference, explicit [panic]) is [Panic];
      loops whose termination depends on the input take a [fuel] and return
      [OutOfFuel] when it is exhausted.
    - Diagnostics printed when [verbose] is set are not part of the model:
      only the control flow that depends on [verbose] is kept. *)

From Stdlib Require Import ZArith Lia Ascii String List DecimalString.
From stdpp Require Import gmap strings list sorting.

Local Open Scope string_scope.
Local Open Scope list_scope.
Local Open Scope Z_scope.
Set Warnings "-register-all".

(** ** Results of Go calls *)

Inductive res (A : Type) : Type :=
| Ok (a : A)
| Err (e : string)
| Panic (p : string)
| OutOfFuel.
Arguments Ok {A} a.
Arguments Err {A} e.
Arguments Panic {A} p.
Arguments OutOfFuel {A}.

#[global] Instance res_ret : MRet res := fun A a => Ok a.
#[global] Instance res_bind : MBind res := fun A B k m =>
  match m with
  | Ok a => k a
  | Err e => Err e
  | Panic p => Panic p
  | OutOfFuel => OutOfFuel
  end.

(** [fmt.Errorf( prefix + "%v", err )]: an error wrapped by the caller. *)
Definition wrapErr {A} (prefix : string) (m : res A) : res A :=
  match m with
  | Err e => Err (prefix +:+ e)
  | r => r
  end.

Definition index_out_of_range : string := "runtime error: index out of range".
Definition slice_out_of_range : string := "runtime error: slice bounds out of range".
Definition nil_dereference : string :=
  "runtime error: invalid memory address or nil pointer dereference".

(** ** Bytes and slices *)

Definition b2z (c : ascii) : Z := Z.of_N (N_of_ascii c).
Definition z2b (z : Z) : ascii := ascii_of_N (Z.to_N (z mod 256)).

Definition len {A} (l : list A) : Z := Z.of_nat (length l).
Definition slen (s : string) : Z := Z.of_nat (String.length s).

(** [l[i]] with Go's bounds check. *)
Definition idx {A} (l : list A) (i : Z) : res A :=
  if (i <? 0) || (len l <=? i) then Panic index_out_of_range
  else match l !! Z.to_nat i with
       | Some a => Ok a
       | None => Panic index_out_of_range
       end.

(** [s[i]] on a string. *)
Definition sidx (s : string) (i : Z) : res ascii :=
  if (i <? 0) || (slen s <=? i) then Panic index_out_of_range
  else match String.get (Z.to_nat i) s with
       | Some a => Ok a
       | None => Panic index_out_of_range
       end.

(** [l[i] = v] with Go's bounds check. *)
Definition store {A} (l : list A) (i : Z) (v : A) : res (list A) :=
  if (i <? 0) || (len l <=? i) then Panic index_out_of_range
  else Ok (<[Z.to_nat i := v]> l).

(** [l[lo:hi]] for [0 <= lo <= hi <= len l] (the capacity is the length
    wherever this is used). *)
Definition slice {A} (l : list A) (lo hi : Z) : res (list A) :=
  if (lo <? 0) || (hi <? lo) || (len l <? hi) then Panic slice_out_of_range
  else Ok (take (Z.to_nat (hi - lo)) (drop (Z.to_nat lo) l)).

(** [make([]byte, n)]: [n] zero bytes; a negative length panics. *)
Definition make_bytes (n : Z) : res (list ascii) :=
  if n <? 0 then Panic "runtime error: makeslice: len out of range"
  else Ok (replicate (Z.to_nat n) zero).

Definition is_byte (c : ascii) (s : string) : bool :=
  match s with
  | String d EmptyString => Ascii.eqb c d
  | _ => false
  end.

(** The white-space bytes the decoders and the hex-string reader skip:
    [0, '\t', '\n', '\f', '\r', ' ']. *)
Definition isWhite (c : ascii) : bool :=
  let z := b2z c in
  (z =? 0) || (z =? 9) || (z =? 10) || (z =? 12) || (z =? 13) || (z =? 32).

(** ** parse.go: makeNibbleFromHexChar *)

Definition makeNibbleFromHexChar (c : Z) : Z :=
  if c <? 0x30 then 0xff
  else if c <=? 0x39 then c - 0x30
  else
    let c := Z.ldiff c 0x20 in              (* c &^= 0x20 *)
    if (c <? 0x41) || (0x46 <? c) then 0xff
    else c - 0x41 + 10.

(** ** stream.go: checkASCIIHexDecode *)

(** State of the decoding loop: decoded length, encoded offset (the nibble
    parity), the pending nibble and the pre-allocated output. *)
Record hexState := {
  hx_dl : Z;
  hx_offset : Z;
  hx_val : Z;
  hx_output : list ascii
}.

(** What a [for ... range] loop with early [return]s leaves behind: either
    the state at loop exit, or the values of a [return] inside the loop. *)
Inductive loopExit (S R : Type) : Type :=
| Fallthrough (s : S)
| Return (r : R).
Arguments Fallthrough {S R} s.
Arguments Return {S R} r.

Fixpoint hexDecodeLoop (data : list ascii) (st : hexState)
  : res (loopExit hexState (list ascii * option string)) :=
  match data with
  | [] => Ok (Fallthrough st)
  | v :: rest =>
      if is_byte v ">" then Ok (Fallthrough st)             (* EOD *)
      else if isWhite v then hexDecodeLoop rest st
      else
        let nib := makeNibbleFromHexChar (b2z v) in
        if nib =? 0xff then
          out ← slice (hx_output st) 0 (hx_dl st);
          Ok (Return (out, Some "Invalid hex character in stream"))
        else if Z.land (hx_offset st) 1 =? 0 then
          hexDecodeLoop rest
            {| hx_dl := hx_dl st; hx_offset := hx_offset st + 1;
               hx_val := nib; hx_output := hx_output st |}
        else
          output ← store (hx_output st) (hx_dl st)
                      (z2b ((hx_val st * 16) mod 256 + nib));
          hexDecodeLoop rest
            {| hx_dl := hx_dl st + 1; hx_offset := hx_offset st + 1;
               hx_val := hx_val st; hx_output := output |}
  end.

Definition checkASCIIHexDecode (data : list ascii) (verbose fix_ : bool)
  : res (list ascii * option string) :=
  output ← make_bytes (2 * len data);
  ex ← hexDecodeLoop data
          {| hx_dl := 0; hx_offset := 0; hx_val := 0; hx_output := output |};
  match ex with
  | Return r => Ok r
  | Fallthrough st =>
      if Z.land (hx_dl st) 1 =? 1 then
        output ← store (hx_output st) (hx_dl st) (z2b (hx_val st * 16));
        out ← slice output 0 (hx_dl st + 1);
        Ok (out, None)
      else
        out ← slice (hx_output st) 0 (hx_dl st);
        Ok (out, None)
  end.

(** ** stream.go: checkASCII85Decode *)

Record a85State := {
  a_dl : Z;          (* decoded length *)
  a_gi : Z;          (* index in a group of 5 characters *)
  a_n64 : Z;         (* value of the current group *)
  a_offset : Z;      (* offset of '~' when EOD is found *)
  a_output : list ascii
}.

Fixpoint a85DecodeLoop (data : list ascii) (i : Z) (st : a85State)
  : res (loopExit a85State (list ascii * option string)) :=
  match data with
  | [] => Ok (Fallthrough st)
  | v :: rest =>
      if is_byte v "~" then
        Ok (Fallthrough {| a_dl := a_dl st; a_gi := a_gi st; a_n64 := a_n64 st;
                           a_offset := i; a_output := a_output st |})
      else if isWhite v then a85DecodeLoop rest (i + 1) st
      else if is_byte v "z" then
        if negb (a_gi st =? 0) then
          out ← slice (a_output st) 0 (a_dl st);
          Ok (Return (out, Some "ASCII 85 character 'z' in a middle of a group in stream"))
        else
          a85DecodeLoop rest (i + 1)
            {| a_dl := a_dl st + 4; a_gi := a_gi st; a_n64 := a_n64 st;
               a_offset := a_offset st; a_output := a_output st |}
      else if (b2z v <? 33) || (117 <? b2z v) then         (* v < '!' || v > 'u' *)
        out ← slice (a_output st) 0 (a_dl st);
        Ok (Return (out, Some "Invalid ASCII 85 character in stream"))
      else
        let n64 := a_n64 st * 85 + (b2z v - 33) in
        if a_gi st =? 4 then
          if 4294967295 <? n64 then
            out ← slice (a_output st) 0 (a_dl st);
            Ok (Return (out, Some "Invalid ASCII 85 encoding (beyond 2^32 -1) in stream"))
          else
            let dl := a_dl st in
            o1 ← store (a_output st) dl (z2b (Z.shiftr n64 24));
            o2 ← store o1 (dl + 1) (z2b (Z.land (Z.shiftr n64 16) 0xff));
            o3 ← store o2 (dl + 2) (z2b (Z.land (Z.shiftr n64 8) 0xff));
            o4 ← store o3 (dl + 3) (z2b (Z.land n64 0xff));
            a85DecodeLoop rest (i + 1)
              {| a_dl := dl + 4; a_gi := 0; a_n64 := 0;
                 a_offset := a_offset st; a_output := o4 |}
        else
          a85DecodeLoop rest (i + 1)
            {| a_dl := a_dl st; a_gi := a_gi st + 1; a_n64 := n64;
               a_offset := a_offset st; a_output := a_output st |}
  end.

(** [for i := gi; i < 5; i++ { n64 = n64 * 85 + 84 }] *)
Fixpoint a85Pad (k : nat) (n64 : Z) : Z :=
  match k with
  | O => n64
  | S k' => a85Pad k' (n64 * 85 + 84)
  end.

(** [for i := 0; i < gi-1; i++ { output[dl] = byte(0xff & (n64 >> (24 - i*8))); dl++ }] *)
Fixpoint a85Tail (k : nat) (i : Z) (n64 dl : Z) (output : list ascii)
  : res (Z * list ascii) :=
  match k with
  | O => Ok (dl, output)
  | S k' =>
      o ← store output dl (z2b (Z.land 0xff (Z.shiftr n64 (24 - i * 8))));
      a85Tail k' (i + 1) n64 (dl + 1) o
  end.

Definition checkASCII85Decode (data : list ascii) (verbose fix_ : bool)
  : res (list ascii * option string) :=
  output ← make_bytes (4 * (len data - 2));
  ex ← a85DecodeLoop data 0
          {| a_dl := 0; a_gi := 0; a_n64 := 0; a_offset := 0; a_output := output |};
  match ex with
  | Return r => Ok r
  | Fallthrough st =>
      let offset := a_offset st in
      if len data <=? offset + 1 then
        (* the error message reads data[offset+1] *)
        if verbose then Panic index_out_of_range
        else (_ ← slice (a_output st) 0 (a_dl st); Panic index_out_of_range)
      else
        next ← idx data (offset + 1);
        if negb (is_byte next ">") then
          out ← slice (a_output st) 0 (a_dl st);
          Ok (out, Some "Invalid ASCII 85 EOD sequence in stream")
        else if verbose then
          if negb (a_gi st =? 0) then
            if a_gi st =? 1 then
              out ← slice (a_output st) 0 (a_dl st);
              Ok (out, Some "Invalid ASCII last group in stream")
            else
              let n64 := a85Pad (Z.to_nat (5 - a_gi st)) (a_n64 st) in
              if 4294967295 <? n64 then
                out ← slice (a_output st) 0 (a_dl st);
                Ok (out, Some "Invalid ASCII 85 encoding (beyond 2^32 -1) in last group")
              else
                '(dl, output) ← a85Tail (Z.to_nat (a_gi st - 1)) 0 n64
                                   (a_dl st) (a_output st);
                out ← slice output 0 dl;
                Ok (out, None)
          else
            out ← slice (a_output st) 0 (a_dl st);
            Ok (out, None)
        else
          out ← slice (a_output st) 0 (a_dl st);
          Ok (out, None)
  end.

(** ** Go library functions used by the package

    These follow the documented behaviour of [bytes], [strings], [strconv]
    and [fmt]; they are not part of the repository. *)

Definition bytes (s : string) : list ascii := list_ascii_of_string s.

Fixpoint hasPrefix (l sep : list ascii) : bool :=
  match sep, l with
  | [], _ => true
  | _ :: _, [] => false
  | a :: sep', b :: l' => Ascii.eqb a b && hasPrefix l' sep'
  end.

Fixpoint indexFrom (l sep : list ascii) (i : Z) : Z :=
  if hasPrefix l sep then i
  else match l with
       | [] => -1
       | _ :: l' => indexFrom l' sep (i + 1)
       end.

(** [bytes.Index(l, sep)]: the first index of [sep] in [l], or -1. *)
Definition bytesIndex (l sep : list ascii) : Z := indexFrom l sep 0.

Fixpoint lastIndexFrom (l sep : list ascii) (i last : Z) : Z :=
  let last' := if hasPrefix l sep then i else last in
  match l with
  | [] => last'
  | _ :: l' => lastIndexFrom l' sep (i + 1) last'
  end.

(** [bytes.LastIndex(l, sep)]: the last index of [sep] in [l], or -1. *)
Definition bytesLastIndex (l sep : list ascii) : Z := lastIndexFrom l sep 0 (-1).

Fixpoint indexAnyFrom (l : list ascii) (chars : list ascii) (i : Z) : Z :=
  match l with
  | [] => -1
  | c :: l' =>
      if existsb (Ascii.eqb c) chars then i else indexAnyFrom l' chars (i + 1)
  end.

(** [bytes.IndexAny(l, chars)] *)
Definition bytesIndexAny (l : list ascii) (chars : string) : Z :=
  indexAnyFrom l (bytes chars) 0.

(** [strings.IndexByte(s, c)] *)
Definition stringsIndexByte (s : string) (c : string) : Z :=
  bytesIndex (bytes s) (bytes c).

Definition digitVal (c : ascii) : option Z :=
  let z := b2z c in
  if (48 <=? z) && (z <=? 57) then Some (z - 48) else None.

Fixpoint parseDigits (s : string) (acc : Z) : option Z :=
  match s with
  | EmptyString => Some acc
  | String c s' =>
      match digitVal c with
      | Some d => parseDigits s' (acc * 10 + d)
      | None => None
      end
  end.

(** [strconv.ParseInt(s, 10, bitSize)]: the value and whether [err == nil].
    A syntax error gives 0, a range error the nearest bound. *)
Definition ParseInt (s : string) (bitSize : Z) : Z * bool :=
  match s with
  | EmptyString => (0, false)
  | String c s' =>
      let neg := is_byte c "-" in
      let body := if is_byte c "+" || neg then s' else s in
      match body with
      | EmptyString => (0, false)
      | _ =>
          match parseDigits body 0 with
          | None => (0, false)
          | Some un =>
              let cutoff := 2 ^ (bitSize - 1) in
              if negb neg && (cutoff <=? un) then (cutoff - 1, false)
              else if neg && (cutoff <? un) then (- cutoff, false)
              else (if neg then - un else un, true)
          end
      end
  end.

(** [strconv.Atoi(s)] with the error dropped, as [serializeNumber] uses it. *)
Definition Atoi (s : string) : Z := fst (ParseInt s 64).

(** [%d] *)
Definition fmt_d (z : Z) : string := NilZero.string_of_int (Z.to_int z).

Definition zeros (n : nat) : string := string_of_list_ascii (replicate n "0"%char).

(** [%0<width>d]: zero padding goes between the sign and the digits. *)
Definition fmt_0d (width : nat) (z : Z) : string :=
  let digits := NilZero.string_of_uint (N.to_uint (Z.to_N (Z.abs z))) in
  if z <? 0 then "-" +:+ zeros (width - 1 - String.length digits) +:+ digits
  else zeros (width - String.length digits) +:+ digits.

Definition hexDigit (z : Z) : ascii :=
  if z <? 10 then z2b (48 + z) else z2b (65 + z - 10).

(** [%X] of a string: two upper-case hexadecimal digits per byte. *)
Fixpoint fmt_X (s : string) : string :=
  match s with
  | EmptyString => EmptyString
  | String c s' =>
      String (hexDigit (b2z c / 16)) (String (hexDigit (b2z c mod 16)) (fmt_X s'))
  end.

(** [for i := i0; <n more rounds>; i++ { body }] over a state, with panics. *)
Fixpoint forUp {S} (n : nat) (i : Z) (body : Z -> S -> res S) (s : S) : res S :=
  match n with
  | O => Ok s
  | Datatypes.S n' => s' ← body i s; forUp n' (i + 1) body s'
  end.

(** Numbers are [float64]. The type and the library calls on it
    ([strconv.ParseFloat], [%g], conversions from and to integers) are an
    interface of the embedding. *)
Class GoFloat := {
  float64 : Type;
  (** [strconv.ParseFloat(s, 64)], [None] when it returns an error *)
  ParseFloat : string -> option float64;
  (** [fmt.Sprintf("%g", x)] *)
  FormatG : float64 -> string;
  (** [int64(x)], [int(x)] *)
  float_to_int : float64 -> Z;
  (** [float64(n)] *)
  float_of_int : Z -> float64
}.

(** ** parse.go: the input state

    [fd] is the open file: its bytes and the position of the descriptor.
    [buffer] is a slice of a 4 MiB array that always starts at index 0, so
    its capacity is [INPUT_BUFFER_SIZE]; [spare] holds what the array
    contains past the length of the slice, which slice expressions such as
    [buffer[a:b]] can reach. Read errors other than end of file are not
    modelled. *)

Definition INPUT_BUFFER_SIZE : Z := 1024 * 1024 * 4.
Definition XREF_ENTRY_SIZE : Z := 20.
Definition _STARTXREF_SIZE : Z := 512.

Record fileInput := {
  fd_content : list ascii;        (* the bytes of the file behind [fd] *)
  fd_pos : Z;                     (* the position of [fd] *)
  size_ : Z;                      (* total file size *)
  bStart : Z;                     (* current buffer file offset *)
  stopAt : Z;                     (* boundary not to cross when refilling buffer *)
  buffer : list ascii;            (* current read buffer, [buffer[0:len]] *)
  spare : list ascii;             (* the backing array of [buffer] past its length (zero further on) *)
  offset : Z;                     (* offset in current read buffer *)
  bytes_ : list ascii;            (* requested n binary bytes *)
  token : string;                 (* current token in buffer *)
  tokFilePos : Z;                 (* current token position in file *)
  savedToken : string;            (* the saved token, empty if none *)
  savedOffset : Z;                (* -1 indicates no saved token *)
  savedPos : Z;                   (* valid only if a token is saved *)
  verbose : bool;                 (* print warnings while parsing *)
  fix_ : bool                     (* try to recover from wrong PDF syntax *)
}.

Definition set_fd_content (fi : fileInput) (v : list ascii) : fileInput :=
  {| fd_content := v; fd_pos := fd_pos fi; size_ := size_ fi;
     bStart := bStart fi; stopAt := stopAt fi; buffer := buffer fi;
     spare := spare fi; offset := offset fi; bytes_ := bytes_ fi;
     token := token fi; tokFilePos := tokFilePos fi;
     savedToken := savedToken fi; savedOffset := savedOffset fi;
     savedPos := savedPos fi; verbose := verbose fi; fix_ := fix_ fi |}.
Definition set_fd_pos (fi : fileInput) (v : Z) : fileInput :=
  {| fd_content := fd_content fi; fd_pos := v; size_ := size_ fi;
     bStart := bStart fi; stopAt := stopAt fi; buffer := buffer fi;
     spare := spare fi; offset := offset fi; bytes_ := bytes_ fi;
     token := token fi; tokFilePos := tokFilePos fi;
     savedToken := savedToken fi; savedOffset := savedOffset fi;
     savedPos := savedPos fi; verbose := verbose fi; fix_ := fix_ fi |}.
Definition set_size (fi : fileInput) (v : Z) : fileInput :=
  {| fd_content := fd_content fi; fd_pos := fd_pos fi; size_ := v;
     bStart := bStart fi; stopAt := stopAt fi; buffer := buffer fi;
     spare := spare fi; offset := offset fi; bytes_ := bytes_ fi;
     token := token fi; tokFilePos := tokFilePos fi;
     savedToken := savedToken fi; savedOffset := savedOffset fi;
     savedPos := savedPos fi; verbose := verbose fi; fix_ := fix_ fi |}.
Definition set_bStart (fi : fileInput) (v : Z) : fileInput :=
  {| fd_content := fd_content fi; fd_pos := fd_pos fi; size_ := size_ fi;
     bStart := v; stopAt := stopAt fi; buffer := buffer fi;
     spare := spare fi; offset := offset fi; bytes_ := bytes_ fi;
     token := token fi; tokFilePos := tokFilePos fi;
     savedToken := savedToken fi; savedOffset := savedOffset fi;
     savedPos := savedPos fi; verbose := verbose fi; fix_ := fix_ fi |}.
Definition set_stopAt (fi : fileInput) (v : Z) : fileInput :=
  {| fd_content := fd_content fi; fd_pos := fd_pos fi; size_ := size_ fi;
     bStart := bStart fi; stopAt := v; buffer := buffer fi;
     spare := spare fi; offset := offset fi; bytes_ := bytes_ fi;
     token := token fi; tokFilePos := tokFilePos fi;
     savedToken := savedToken fi; savedOffset := savedOffset fi;
     savedPos := savedPos fi; verbose := verbose fi; fix_ := fix_ fi |}.
Definition set_buffer (fi : fileInput) (v : list ascii) : fileInput :=
  {| fd_content := fd_content fi; fd_pos := fd_pos fi; size_ := size_ fi;
     bStart := bStart fi; stopAt := stopAt fi; buffer := v;
     spare := spare fi; offset := offset fi; bytes_ := bytes_ fi;
     token := token fi; tokFilePos := tokFilePos fi;
     savedToken := savedToken fi; savedOffset := savedOffset fi;
     savedPos := savedPos fi; verbose := verbose fi; fix_ := fix_ fi |}.
Definition set_spare (fi : fileInput) (v : list ascii) : fileInput :=
  {| fd_content := fd_content fi; fd_pos := fd_pos fi; size_ := size_ fi;
     bStart := bStart fi; stopAt := stopAt fi; buffer := buffer fi;
     spare := v; offset := offset fi; bytes_ := bytes_ fi; token := token fi;
     tokFilePos := tokFilePos fi; savedToken := savedToken fi;
     savedOffset := savedOffset fi; savedPos := savedPos fi;
     verbose := verbose fi; fix_ := fix_ fi |}.
Definition set_offset (fi : fileInput) (v : Z) : fileInput :=
  {| fd_content := fd_content fi; fd_pos := fd_pos fi; size_ := size_ fi;
     bStart := bStart fi; stopAt := stopAt fi; buffer := buffer fi;
     spare := spare fi; offset := v; bytes_ := bytes_ fi; token := token fi;
     tokFilePos := tokFilePos fi; savedToken := savedToken fi;
     savedOffset := savedOffset fi; savedPos := savedPos fi;
     verbose := verbose fi; fix_ := fix_ fi |}.
Definition set_bytes (fi : fileInput) (v : list ascii) : fileInput :=
  {| fd_content := fd_content fi; fd_pos := fd_pos fi; size_ := size_ fi;
     bStart := bStart fi; stopAt := stopAt fi; buffer := buffer fi;
     spare := spare fi; offset := offset fi; bytes_ := v; token := token fi;
     tokFilePos := tokFilePos fi; savedToken := savedToken fi;
     savedOffset := savedOffset fi; savedPos := savedPos fi;
     verbose := verbose fi; fix_ := fix_ fi |}.
Definition set_token (fi : fileInput) (v : string) : fileInput :=
  {| fd_content := fd_content fi; fd_pos := fd_pos fi; size_ := size_ fi;
     bStart := bStart fi; stopAt := stopAt fi; buffer := buffer fi;
     spare := spare fi; offset := offset fi; bytes_ := bytes_ fi; token := v;
     tokFilePos := tokFilePos fi; savedToken := savedToken fi;
     savedOffset := savedOffset fi; savedPos := savedPos fi;
     verbose := verbose fi; fix_ := fix_ fi |}.
Definition set_tokFilePos (fi : fileInput) (v : Z) : fileInput :=
  {| fd_content := fd_content fi; fd_pos := fd_pos fi; size_ := size_ fi;
     bStart := bStart fi; stopAt := stopAt fi; buffer := buffer fi;
     spare := spare fi; offset := offset fi; bytes_ := bytes_ fi;
     token := token fi; tokFilePos := v; savedToken := savedToken fi;
     savedOffset := savedOffset fi; savedPos := savedPos fi;
     verbose := verbose fi; fix_ := fix_ fi |}.
Definition set_savedToken (fi : fileInput) (v : string) : fileInput :=
  {| fd_content := fd_content fi; fd_pos := fd_pos fi; size_ := size_ fi;
     bStart := bStart fi; stopAt := stopAt fi; buffer := buffer fi;
     spare := spare fi; offset := offset fi; bytes_ := bytes_ fi;
     token := token fi; tokFilePos := tokFilePos fi; savedToken := v;
     savedOffset := savedOffset fi; savedPos := savedPos fi;
     verbose := verbose fi; fix_ := fix_ fi |}.
Definition set_savedOffset (fi : fileInput) (v : Z) : fileInput :=
  {| fd_content := fd_content fi; fd_pos := fd_pos fi; size_ := size_ fi;
     bStart := bStart fi; stopAt := stopAt fi; buffer := buffer fi;
     spare := spare fi; offset := offset fi; bytes_ := bytes_ fi;
     token := token fi; tokFilePos := tokFilePos fi;
     savedToken := savedToken fi; savedOffset := v; savedPos := savedPos fi;
     verbose := verbose fi; fix_ := fix_ fi |}.
Definition set_savedPos (fi : fileInput) (v : Z) : fileInput :=
  {| fd_content := fd_content fi; fd_pos := fd_pos fi; size_ := size_ fi;
     bStart := bStart fi; stopAt := stopAt fi; buffer := buffer fi;
     spare := spare fi; offset := offset fi; bytes_ := bytes_ fi;
     token := token fi; tokFilePos := tokFilePos fi;
     savedToken := savedToken fi; savedOffset := savedOffset fi;
     savedPos := v; verbose := verbose fi; fix_ := fix_ fi |}.
Definition set_verbose (fi : fileInput) (v : bool) : fileInput :=
  {| fd_content := fd_content fi; fd_pos := fd_pos fi; size_ := size_ fi;
     bStart := bStart fi; stopAt := stopAt fi; buffer := buffer fi;
     spare := spare fi; offset := offset fi; bytes_ := bytes_ fi;
     token := token fi; tokFilePos := tokFilePos fi;
     savedToken := savedToken fi; savedOffset := savedOffset fi;
     savedPos := savedPos fi; verbose := v; fix_ := fix_ fi |}.
Definition set_fix (fi : fileInput) (v : bool) : fileInput :=
  {| fd_content := fd_content fi; fd_pos := fd_pos fi; size_ := size_ fi;
     bStart := bStart fi; stopAt := stopAt fi; buffer := buffer fi;
     spare := spare fi; offset := offset fi; bytes_ := bytes_ fi;
     token := token fi; tokFilePos := tokFilePos fi;
     savedToken := savedToken fi; savedOffset := savedOffset fi;
     savedPos := savedPos fi; verbose := verbose fi; fix_ := v |}.

(** *** The buffer and the file descriptor *)

Definition parseErrorf {A} (msg : string) : res A := Err msg.

(** The backing array of [fi.buffer], as far as it is known. *)
Definition backing (fi : fileInput) : list ascii := buffer fi ++ spare fi.

(** [fi.buffer[lo:hi]]: a slice expression is checked against the capacity,
    not the length. *)
Definition bufSlice (fi : fileInput) (lo hi : Z) : res (list ascii) :=
  if (lo <? 0) || (hi <? lo) || (INPUT_BUFFER_SIZE <? hi)
  then Panic slice_out_of_range
  else
    let got := take (Z.to_nat (hi - lo)) (drop (Z.to_nat lo) (backing fi)) in
    Ok (got ++ replicate (Z.to_nat (hi - lo) - length got) zero).

(** [fi.buffer[lo:]] *)
Definition bufFrom (fi : fileInput) (lo : Z) : res (list ascii) :=
  if (lo <? 0) || (len (buffer fi) <? lo) then Panic slice_out_of_range
  else Ok (drop (Z.to_nat lo) (buffer fi)).

(** [fi.fd.Read(b)] for a [b] of [k] bytes at position [pos]: the bytes
    read, and whether the call returns [io.EOF]. *)
Definition fdRead (fi : fileInput) (pos k : Z) : list ascii * bool :=
  let got := take (Z.to_nat k) (drop (Z.to_nat pos) (fd_content fi)) in
  (got, (0 <? k) && (len got =? 0)).

Definition getFilePos (fi : fileInput) : Z := bStart fi + offset fi.

(** [refill]: the state after the call and whether it returned [io.EOF]. *)
Definition refill (fi : fileInput) : res (fileInput * bool) :=
  let remaining := len (buffer fi) - offset fi in
  arr ← (if 0 <? remaining then
           tail ← bufFrom fi (offset fi);
           Ok (tail ++ drop (length tail) (buffer fi))
         else Ok (buffer fi));
  let end_ := stopAt fi - bStart fi - offset fi in
  let end_ := if len (buffer fi) <? end_ then len (buffer fi) else end_ in
  '(got, eof) ← (if remaining <? end_ then
                   if remaining <? 0 then Panic slice_out_of_range
                   else Ok (fdRead fi (fd_pos fi) (end_ - remaining))
                 else Ok ([], true));
  let n := len got in
  if remaining + n <? 0 then Panic slice_out_of_range
  else
    let arr := take (Z.to_nat remaining) arr ++ got
               ++ drop (Z.to_nat (remaining + n)) arr in
    let fi := set_buffer fi (take (Z.to_nat (remaining + n)) arr) in
    let fi := set_spare fi (drop (Z.to_nat (remaining + n)) arr ++ spare fi) in
    let fi := set_fd_pos fi (fd_pos fi + n) in
    let fi := set_bStart fi (bStart fi + offset fi) in
    Ok (set_offset fi 0, eof).

(** [fillBuffer( size, fl )]; [Err] stands for a failed [Seek], which leaves
    the state as it was. *)
Definition fillBuffer (fi : fileInput) (size fl : Z) : res fileInput :=
  if size =? 0 then Ok fi
  else if fl <? 0 then Err "seek: invalid argument"
  else
    let fi := set_bStart fi fl in
    let fi := set_stopAt fi (fl + size) in
    let size := if INPUT_BUFFER_SIZE <? size then INPUT_BUFFER_SIZE else size in
    if size <? 0 then Panic slice_out_of_range
    else
      let (got, _) := fdRead fi fl size in
      let rest := drop (length got) (backing fi) in
      let fi := set_fd_pos fi (fl + len got) in
      let fi := set_buffer fi got in
      let fi := set_spare fi rest in
      Ok (set_offset fi 0).

(** A call whose error result is dropped by the caller. *)
Definition ignoreErr (fi : fileInput) (r : res fileInput) : res fileInput :=
  match r with
  | Err _ => Ok fi
  | r => r
  end.

Definition skipInBufferTo (fi : fileInput) (off : Z) : res fileInput :=
  if stopAt fi <? off then Panic "skipping outside range"
  else if len (buffer fi) <=? off - bStart fi then
    ignoreErr fi (fillBuffer fi (stopAt fi - off) off)
  else Ok (set_offset fi (off - bStart fi)).

(** [readNBytes]: [acc] is what has been copied into [fi.bytes] so far. *)
Fixpoint readNBytesLoop (fuel : nat) (fi : fileInput) (n r : Z)
    (acc : list ascii) : res (fileInput * Z) :=
  match fuel with
  | O => OutOfFuel
  | S fuel' =>
      let end_ := len (buffer fi) in
      let remaining := end_ - offset fi in
      if n - r <=? remaining then
        chunk ← bufSlice fi (offset fi) (offset fi + (n - r));
        let fi := set_bytes fi (acc ++ chunk) in
        Ok (set_offset fi (offset fi + (n - r)), n)
      else
        let r := r + remaining in
        tail ← bufFrom fi (offset fi);
        let acc := acc ++ tail in
        let fi := set_offset fi end_ in
        '(fi, eof) ← refill fi;
        if (eof : bool) then
          Ok (set_bytes fi (acc ++ replicate (Z.to_nat n - length acc) zero), r)
        else readNBytesLoop fuel' fi n r acc
  end.

Definition readNBytes (fuel : nat) (fi : fileInput) (n : Z) : res (fileInput * Z) :=
  if n =? 0 then Ok (fi, 0)
  else
    fresh ← make_bytes n;
    readNBytesLoop fuel fi n 0 [].

Definition endstream : list ascii := bytes "endstream".

Fixpoint readUpToEndstreamLoop (fuel : nat) (fi : fileInput) (acc : list ascii)
  : res (fileInput * Z) :=
  match fuel with
  | O => OutOfFuel
  | S fuel' =>
      rest ← bufFrom fi (offset fi);
      let e := bytesIndex rest endstream in
      if negb (e =? -1) then
        let e := e + offset fi in
        chunk ← bufSlice fi (offset fi) e;
        let fi := set_bytes fi (acc ++ chunk) in
        let fi := set_offset fi (e + len endstream) in
        Ok (fi, len (bytes_ fi))
      else
        let fi := set_bytes fi (acc ++ rest) in
        let fi := set_offset fi (len (buffer fi)) in
        '(fi, eof) ← refill fi;
        if (eof : bool) then parseErrorf "No 'endstream' within stream object"
        else readUpToEndstreamLoop fuel' fi (bytes_ fi)
  end.

Definition readUpToEndstream (fuel : nat) (fi : fileInput) : res (fileInput * Z) :=
  readUpToEndstreamLoop fuel (set_bytes fi []) [].

Fixpoint skipCurrentLF (fuel : nat) (fi : fileInput) : res (fileInput * bool) :=
  match fuel with
  | O => OutOfFuel
  | S fuel' =>
      if offset fi <? len (buffer fi) then
        c ← idx (buffer fi) (offset fi);
        if is_byte c (String "010"%char "") then Ok (set_offset fi (offset fi + 1), true)
        else Ok (fi, false)
      else
        '(fi, eof) ← refill fi;
        if (eof : bool) then parseErrorf "Premature EOF (expecting LF)"
        else skipCurrentLF fuel' fi
  end.

Fixpoint skipCurrentEOL (fuel : nat) (fi : fileInput) (crLf : bool)
  : res (fileInput * bool) :=
  match fuel with
  | O => OutOfFuel
  | S fuel' =>
      if offset fi <? len (buffer fi) then
        c ← idx (buffer fi) (offset fi);
        if is_byte c (String "013"%char "") then
          if crLf then skipCurrentLF fuel (set_offset fi (offset fi + 1))
          else Ok (fi, true)
        else if is_byte c (String "010"%char "") then
          Ok (set_offset fi (offset fi + 1), true)
        else Ok (fi, false)
      else
        '(fi, eof) ← refill fi;
        if (eof : bool) then parseErrorf "Premature EOF (expecting EOL)"
        else skipCurrentEOL fuel' fi crLf
  end.

(** The inner [for] of [skipSpaces] over [buffer[i:]]: the index reached,
    [inComment], and whether the function returned there. *)
Fixpoint skipSpacesScan (noComment : bool) (l : list ascii) (i : Z)
    (inComment : bool) : Z * bool * bool :=
  match l with
  | [] => (i, inComment, false)
  | c :: l' =>
      let z := b2z c in
      if (z =? 10) || (z =? 13) then skipSpacesScan noComment l' (i + 1) false
      else if (z =? 32) || (z =? 9) || (z =? 12) then
        skipSpacesScan noComment l' (i + 1) inComment
      else if z =? 37 then                                   (* '%' *)
        if noComment then (i, inComment, true)
        else skipSpacesScan noComment l' (i + 1) true
      else if inComment then skipSpacesScan noComment l' (i + 1) inComment
      else (i, inComment, true)
  end.

Fixpoint skipSpacesLoop (fuel : nat) (fi : fileInput) (noComment inComment : bool)
  : res fileInput :=
  match fuel with
  | O => OutOfFuel
  | S fuel' =>
      if offset fi <? 0 then Panic index_out_of_range
      else
        let '(i, inComment, returned) :=
          skipSpacesScan noComment (drop (Z.to_nat (offset fi)) (buffer fi))
            (offset fi) inComment in
        let fi := set_offset fi i in
        if returned then Ok fi
        else
          '(fi, eof) ← refill fi;
          if (eof : bool) then Ok fi
          else skipSpacesLoop fuel' fi noComment inComment
  end.

Definition skipSpaces (fuel : nat) (fi : fileInput) (noComment : bool)
  : res fileInput :=
  skipSpacesLoop fuel fi noComment false.

Definition eofComment (fi : fileInput) : res (fileInput * bool) :=
  '(fi, eof) ← (if len (buffer fi) <=? offset fi + 4 then refill fi
                else Ok (fi, false));
  if (eof : bool) then Ok (fi, false)
  else
    let i := offset fi in
    c0 ← idx (buffer fi) i;
    if negb (is_byte c0 "%") then Ok (fi, false) else
    c1 ← idx (buffer fi) (i + 1);
    if negb (is_byte c1 "%") then Ok (fi, false) else
    c2 ← idx (buffer fi) (i + 2);
    if negb (is_byte c2 "E") then Ok (fi, false) else
    c3 ← idx (buffer fi) (i + 3);
    if negb (is_byte c3 "O") then Ok (fi, false) else
    c4 ← idx (buffer fi) (i + 4);
    if negb (is_byte c4 "F") then Ok (fi, false) else
    Ok (fi, true).

(** *** The tokenizer *)

Inductive tokenScanResult :=
| TokenFound (tok : string) (off : Z)
| TokenOpen (i : Z) (previous : ascii) (sb : string).

Definition isAngle (c : ascii) : bool := is_byte c "<" || is_byte c ">".

Definition endsToken (c : ascii) : bool :=
  let z := b2z c in
  (z =? 13) || (z =? 10) || (z =? 0) || (z =? 9) || (z =? 12) || (z =? 32)
  || (z =? 37).

Definition putc (sb : string) (c : ascii) : string := sb +:+ String c "".

(** The inner [for] of [nextToken] over [buffer[i:]]. *)
Fixpoint tokenScan (l : list ascii) (i : Z) (previous : ascii) (sb : string)
  : tokenScanResult :=
  match l with
  | [] => TokenOpen i previous sb
  | b :: l' =>
      if isAngle b then
        if 1 <? slen sb then TokenFound sb i
        else if is_byte previous "<" then TokenFound "<<" (i + 1)
        else if is_byte previous ">" then TokenFound ">>" (i + 1)
        else tokenScan l' (i + 1) b (putc sb b)
      else if is_byte b "/" then
        if 0 <? slen sb then TokenFound (String b "") i
        else tokenScan l' (i + 1) b (putc sb b)
      else if is_byte b "[" || is_byte b "]" || is_byte b "(" then
        if slen sb =? 0 then TokenFound (String b "") (i + 1)
        else TokenFound sb i
      else if endsToken b then TokenFound sb i
      else if (slen sb =? 1) && isAngle previous then TokenFound sb i
      else tokenScan l' (i + 1) b (putc sb b)
  end.

Fixpoint nextTokenLoop (fuel : nat) (fi : fileInput) (i : Z) (previous : ascii)
    (sb : string) : res fileInput :=
  match fuel with
  | O => OutOfFuel
  | S fuel' =>
      if i <? 0 then Panic index_out_of_range
      else
        match tokenScan (drop (Z.to_nat i) (buffer fi)) i previous sb with
        | TokenFound tok off => Ok (set_offset (set_token fi tok) off)
        | TokenOpen i previous sb =>
            '(fi, eof) ← refill fi;
            if (eof : bool) then Ok (set_token (set_offset fi i) sb)
            else
              let fi := if negb (savedOffset fi =? -1)
                        then set_savedOffset fi 0 else fi in
              nextTokenLoop fuel' fi (slen sb) previous sb
        end
  end.

Definition nextToken (fuel : nat) (fi : fileInput) : res fileInput :=
  fi ← skipSpaces fuel fi false;
  let fi := if negb (savedOffset fi =? -1)
            then set_savedOffset fi (offset fi) else fi in
  let fi := set_tokFilePos fi (getFilePos fi) in
  if stopAt fi <=? tokFilePos fi then Ok (set_token fi "")
  else nextTokenLoop fuel fi (offset fi) zero "".

Definition saveCurrentToken (fi : fileInput) : fileInput :=
  let fi := set_savedToken fi (token fi) in
  let fi := set_savedPos fi (tokFilePos fi) in
  set_savedOffset fi (offset fi).

Definition restoreCurrentToken (fi : fileInput) : fileInput :=
  let fi := set_token fi (savedToken fi) in
  let fi := set_tokFilePos fi (savedPos fi) in
  let fi := set_offset fi (savedOffset fi) in
  let fi := set_savedToken fi "" in
  set_savedOffset fi (-1).

Definition checkObjType (fuel : nat) (fi : fileInput) (expected : string)
  : res fileInput :=
  if negb (String.eqb (token fi) expected) then parseErrorf "Not an object"
  else nextToken fuel fi.

Fixpoint getByte (fuel : nat) (fi : fileInput) : res (fileInput * ascii) :=
  match fuel with
  | O => OutOfFuel
  | S fuel' =>
      if offset fi <? len (buffer fi) then
        c ← idx (buffer fi) (offset fi);
        Ok (set_offset fi (offset fi + 1), c)
      else
        '(fi, eof) ← refill fi;
        if (eof : bool) then Ok (fi, "010"%char)
        else getByte fuel' fi
  end.

Definition ungetByte (fi : fileInput) : fileInput :=
  set_offset fi (offset fi - 1).

Definition isOctal (c : ascii) : bool := (0x30 <=? b2z c) && (b2z c <=? 0x37).

Definition isEscaped (c : ascii) : bool :=
  existsb (Ascii.eqb c)
    (bytes "nrtbf()\" ++ ["010"%char; "013"%char]).

Definition writeEscapeSeq (fuel : nat) (fi : fileInput) (sb : string)
  : res (fileInput * string) :=
  '(fi, c) ← getByte fuel fi;
  if isEscaped c then Ok (fi, putc (putc sb "\"%char) c)
  else if negb (isOctal c) then Ok (ungetByte fi, sb)
  else
    let sb := putc (putc sb "\"%char) c in
    '(fi, c) ← getByte fuel fi;
    if negb (isOctal c) then Ok (ungetByte fi, sb)
    else
      let sb := putc sb c in
      '(fi, c) ← getByte fuel fi;
      if negb (isOctal c) then Ok (ungetByte fi, sb)
      else Ok (fi, putc sb c).

(** The inner [for i := fi.offset; i < end; i++] of [getLiteralString]: it
    either returns the string, or runs to [end] with the counters kept. *)
Fixpoint literalScan (fuel : nat) (fi : fileInput) (i end_ : Z) (openCount : Z)
    (sb : string) : res (fileInput * string + fileInput * Z * string) :=
  match fuel with
  | O => OutOfFuel
  | S fuel' =>
      if end_ <=? i then Ok (inr (fi, openCount, sb))
      else
        c ← idx (buffer fi) i;
        if is_byte c "(" then
          literalScan fuel' fi (i + 1) end_ (openCount + 1) (putc sb c)
        else if is_byte c ")" then
          let openCount := openCount - 1 in
          if openCount =? 0 then
            fi ← nextToken fuel (set_offset fi (i + 1));
            Ok (inl (fi, sb))
          else literalScan fuel' fi (i + 1) end_ openCount (putc sb c)
        else if is_byte c "\" then
          '(fi, sb) ← writeEscapeSeq fuel (set_offset fi (i + 1)) sb;
          literalScan fuel' fi (offset fi) (len (buffer fi)) openCount sb
        else literalScan fuel' fi (i + 1) end_ openCount (putc sb c)
  end.

Fixpoint literalLoop (fuel : nat) (fi : fileInput) (openCount : Z) (sb : string)
  : res (fileInput * string) :=
  match fuel with
  | O => OutOfFuel
  | S fuel' =>
      r ← literalScan fuel fi (offset fi) (len (buffer fi)) openCount sb;
      match r with
      | inl done => Ok done
      | inr (fi, openCount, sb) =>
          '(fi, eof) ← refill fi;
          if (eof : bool) then parseErrorf "End of file within a literal string"
          else literalLoop fuel' fi openCount sb
      end
  end.

Definition getLiteralString (fuel : nat) (fi : fileInput) : res (fileInput * string) :=
  literalLoop fuel fi 1 "".

(** *** Streams *)

Definition checkExpectedEndStream (fi : fileInput) (l stop : Z) : res Z :=
  let expectedEndPos := bStart fi + offset fi + l in
  if (stopAt fi <? expectedEndPos) || (size_ fi <? expectedEndPos) then Ok (-1)
  else if negb (stop =? -1) && (stop <? expectedEndPos) then Ok (-1)
  else
    let expectedEndOffset := offset fi + l in
    localBuffer ←
      (if expectedEndOffset + 15 <? len (buffer fi) then
         lb ← bufSlice fi expectedEndOffset (expectedEndOffset + 15);
         Ok (Some lb)
       else
         (* a failed Seek leaves the descriptor where it is *)
         let pos := if expectedEndPos <? 0 then fd_pos fi else expectedEndPos in
         let (got, eof) := fdRead fi pos 256 in
         if (eof : bool) then Ok None else Ok (Some got));
    match localBuffer with
    | None => Ok (-1)
    | Some lb =>
        let e := bytesIndex lb endstream in
        if e =? -1 then Ok (-1)
        else
          e ← (if e =? 2 then
                 c1 ← idx lb 1;
                 if negb (b2z c1 =? 0x0a) then Ok e else
                 c0 ← idx lb 0;
                 if negb (b2z c0 =? 0x0d) then Ok e else Ok 0
               else if e =? 1 then
                 c0 ← idx lb 0;
                 if negb (b2z c0 =? 0x0a) && negb (b2z c0 =? 0x0d) then Ok e
                 else Ok 0
               else Ok e);
          Ok (l + e)
    end.

Definition getStreamBytes (fuel : nat) (fi : fileInput) (l stop : Z)
  : res (fileInput * list ascii) :=
  match skipCurrentEOL fuel fi true with
  | Ok (fi, true) =>
      actual ← checkExpectedEndStream fi l stop;
      fi ← (if actual =? -1 then
              if negb (fix_ fi) then parseErrorf "No 'endstream' at stream end"
              else
                '(fi, _) ← readUpToEndstream fuel fi;
                Ok fi
            else
              if negb (l =? actual) && negb (fix_ fi) then
                parseErrorf "Stream length does not match actual length"
              else
                '(fi, l) ← readNBytes fuel fi actual;
                if l <? actual then Panic "Stream object with wrong length"
                else
                  fi ← nextToken fuel fi;
                  if negb (String.eqb (token fi) "endstream") then
                    Panic "Stream object without 'endstream' or with wrong length"
                  else Ok fi);
      fi ← nextToken fuel fi;
      Ok (fi, bytes_ fi)
  | Ok (_, false) | Err _ => parseErrorf "Stream keyword without following EOL"
  | Panic p => Panic p
  | OutOfFuel => OutOfFuel
  end.

(** [sort.Sort] is the library's: any rearrangement of the slice that is
    ordered by [Less]. It takes the [Less] of the interface. *)
Class GoSort := {
  sort_Sort : forall {A : Type}, (A -> A -> bool) -> list A -> list A
}.

(** ** Data model (parse.go) *)

Record pdfReference := { ref_id : Z; ref_gen : Z }.

Section Model.
Context `{GoFloat} `{GoSort}.

(** A PDF value held in an [interface{}]; [nilValue] is the nil interface. *)
Inductive value : Type :=
| nilValue
| pdfBool (b : bool)
| pdfNumber (n : float64)
| pdfString (s : string)
| pdfHexString (s : string)
| pdfName (s : string)
| pdfDictionaryV (d : pdfDictionary)
| pdfStream (extent : pdfDictionary) (data : list ascii)
| PdfArray (data : list value)
| pdfNull
| pdfReferenceV (r : pdfReference)
with pdfDictionary : Type :=
| mkDictionary (keys : list string) (data : gmap string value).

Definition keys (d : pdfDictionary) : list string :=
  match d with mkDictionary k _ => k end.
Definition data (d : pdfDictionary) : gmap string value :=
  match d with mkDictionary _ m => m end.

Record PdfObject := {
  o_id : Z; o_gen : Z;
  o_start : Z; o_stop : Z;
  o_value : value
}.

(** [*PdfObject]: an index in the heap of objects. *)
Definition loc := nat.

Record PdfFile := {
  Version : string;
  Header : string;
  Objects : list loc;
  ObjById : gmap Z loc;
  Trailer : pdfDictionary;
  Size : Z;
  Catalog : pdfReference;
  Encrypt : pdfReference;
  Info : pdfReference;
  Id : option (list value);
  (** the cells the pointers of [Objects] and [ObjById] point to *)
  heap : list PdfObject
}.

Definition set_Version (pf : PdfFile) (v : string) : PdfFile :=
  {| Version := v; Header := Header pf; Objects := Objects pf;
     ObjById := ObjById pf; Trailer := Trailer pf; Size := Size pf;
     Catalog := Catalog pf; Encrypt := Encrypt pf; Info := Info pf;
     Id := Id pf; heap := heap pf |}.
Definition set_Header (pf : PdfFile) (v : string) : PdfFile :=
  {| Version := Version pf; Header := v; Objects := Objects pf;
     ObjById := ObjById pf; Trailer := Trailer pf; Size := Size pf;
     Catalog := Catalog pf; Encrypt := Encrypt pf; Info := Info pf;
     Id := Id pf; heap := heap pf |}.
Definition set_Objects (pf : PdfFile) (v : list loc) : PdfFile :=
  {| Version := Version pf; Header := Header pf; Objects := v;
     ObjById := ObjById pf; Trailer := Trailer pf; Size := Size pf;
     Catalog := Catalog pf; Encrypt := Encrypt pf; Info := Info pf;
     Id := Id pf; heap := heap pf |}.
Definition set_ObjById (pf : PdfFile) (v : gmap Z loc) : PdfFile :=
  {| Version := Version pf; Header := Header pf; Objects := Objects pf;
     ObjById := v; Trailer := Trailer pf; Size := Size pf;
     Catalog := Catalog pf; Encrypt := Encrypt pf; Info := Info pf;
     Id := Id pf; heap := heap pf |}.
Definition set_Trailer (pf : PdfFile) (v : pdfDictionary) : PdfFile :=
  {| Version := Version pf; Header := Header pf; Objects := Objects pf;
     ObjById := ObjById pf; Trailer := v; Size := Size pf;
     Catalog := Catalog pf; Encrypt := Encrypt pf; Info := Info pf;
     Id := Id pf; heap := heap pf |}.
Definition set_Size (pf : PdfFile) (v : Z) : PdfFile :=
  {| Version := Version pf; Header := Header pf; Objects := Objects pf;
     ObjById := ObjById pf; Trailer := Trailer pf; Size := v;
     Catalog := Catalog pf; Encrypt := Encrypt pf; Info := Info pf;
     Id := Id pf; heap := heap pf |}.
Definition set_Catalog (pf : PdfFile) (v : pdfReference) : PdfFile :=
  {| Version := Version pf; Header := Header pf; Objects := Objects pf;
     ObjById := ObjById pf; Trailer := Trailer pf; Size := Size pf;
     Catalog := v; Encrypt := Encrypt pf; Info := Info pf; Id := Id pf;
     heap := heap pf |}.
Definition set_Encrypt (pf : PdfFile) (v : pdfReference) : PdfFile :=
  {| Version := Version pf; Header := Header pf; Objects := Objects pf;
     ObjById := ObjById pf; Trailer := Trailer pf; Size := Size pf;
     Catalog := Catalog pf; Encrypt := v; Info := Info pf; Id := Id pf;
     heap := heap pf |}.
Definition set_Info (pf : PdfFile) (v : pdfReference) : PdfFile :=
  {| Version := Version pf; Header := Header pf; Objects := Objects pf;
     ObjById := ObjById pf; Trailer := Trailer pf; Size := Size pf;
     Catalog := Catalog pf; Encrypt := Encrypt pf; Info := v; Id := Id pf;
     heap := heap pf |}.
Definition set_Id (pf : PdfFile) (v : option (list value)) : PdfFile :=
  {| Version := Version pf; Header := Header pf; Objects := Objects pf;
     ObjById := ObjById pf; Trailer := Trailer pf; Size := Size pf;
     Catalog := Catalog pf; Encrypt := Encrypt pf; Info := Info pf; Id := v;
     heap := heap pf |}.
Definition set_heap (pf : PdfFile) (v : list PdfObject) : PdfFile :=
  {| Version := Version pf; Header := Header pf; Objects := Objects pf;
     ObjById := ObjById pf; Trailer := Trailer pf; Size := Size pf;
     Catalog := Catalog pf; Encrypt := Encrypt pf; Info := Info pf;
     Id := Id pf; heap := v |}.

Definition deref (h : list PdfObject) (l : loc) : res PdfObject :=
  match h !! l with
  | Some o => Ok o
  | None => Panic nil_dereference
  end.

(** ** serialize.go *)

(** The file being written and the package variable [arrayLevel]. *)
Record writer := { out : string; arrayLevel : Z }.

Definition write (w : writer) (s : string) : writer :=
  {| out := out w +:+ s; arrayLevel := arrayLevel w |}.

(** [f.Seek( 0, os.SEEK_CUR )] *)
Definition filePos (w : writer) : Z := slen (out w).

(** [serializeNumber]: the text of [%g] is rewritten without exponent.
    [fRes] is the byte array the function fills; every [fRes[i] = ...] and
    [res[i]] is bounds-checked as in Go. *)
Definition serializeNumber (w : writer) (n : float64) : res writer :=
  let res := FormatG n in
  let end_ := stringsIndexByte res "e" in
  if end_ =? -1 then Ok (write w res)
  else
    c0 ← sidx res 0;
    let start := if is_byte c0 "-" then 1 else 0 in
    let exp := Atoi (string_of_list_ascii (drop (Z.to_nat (end_ + 1)) (bytes res))) in
    let ml := end_ - start - 1 in                       (* excluding '.' *)
    c1 ← sidx res (start + 1);
    let pt := if negb (is_byte c1 ".") then 0 else 1 in
    let ml := if negb (is_byte c1 ".") then ml + 1 else ml in
    let nZ := if 0 <? exp then exp - ml + 1 else - exp in
    let dp := if (0 <? exp) && ((pt =? 1) || (ml - 1 <=? exp)) then 0 else 1 in
    fRes ← make_bytes (start + dp + ml + nZ);
    fRes ← (if 0 <? start then store fRes 0 "-"%char else Ok fRes);
    if exp <? 0 then
      fRes ← store fRes start "0"%char;
      fRes ← store fRes (start + 1) "."%char;
      let next := start + 2 in
      (* for i := -1; i > exp; i-- *)
      '(fRes, next) ← forUp (Z.to_nat (-1 - exp)) 0
          (fun _ '(fRes, next) =>
             fRes ← store fRes next "0"%char; Ok (fRes, next + 1))
          (fRes, next);
      c ← sidx res start;
      fRes ← store fRes next c;
      let next := next + 1 in
      let start := start + 1 in
      (* for i := 1; i < ml; i++ *)
      '(fRes, next) ← forUp (Z.to_nat (ml - 1)) 1
          (fun i '(fRes, next) =>
             c ← sidx res (start + i);
             fRes ← store fRes next c; Ok (fRes, next + 1))
          (fRes, next);
      Ok (write w (string_of_list_ascii fRes))
    else
      c ← sidx res start;
      fRes ← store fRes start c;                         (* first digit *)
      let next := start + 1 in
      let next := if pt =? 1 then next + 1 else next in  (* skip '.' in res *)
      if dp =? 0 then
        (* for i := 1; i < ml; i++ : copy the first ml digits *)
        '(fRes, next) ← forUp (Z.to_nat (ml - 1)) 1
            (fun i '(fRes, next) =>
               c ← sidx res next;
               fRes ← store fRes (start + i) c; Ok (fRes, next + 1))
            (fRes, next);
        let start := start + ml in
        (* for i := 0; i < nZ; i++ : then the remaining 0s *)
        '(fRes, next) ← forUp (Z.to_nat nZ) 0
            (fun i '(fRes, next) =>
               fRes ← store fRes (start + i) "0"%char; Ok (fRes, next + 1))
            (fRes, next);
        Ok (write w (string_of_list_ascii fRes))
      else Panic "Unexpected %g case".

(** [serializeDictionary], with the recursive call on values abstracted. *)
Fixpoint serializeEntries (sv : writer -> value -> res writer) (w : writer)
    (ks : list string) (d : gmap string value) : res writer :=
  match ks with
  | [] => Ok w
  | k :: ks' =>
      match d !! k with
      | None => Panic ("Dictionary with no value for key " +:+ k)
      | Some v =>
          w ← sv (write w ("/" +:+ k +:+ " ")) v;
          serializeEntries sv (write w (String "010"%char "")) ks' d
      end
  end.

Definition serializeDictionaryWith (sv : writer -> value -> res writer)
    (w : writer) (ks : list string) (d : gmap string value) : res writer :=
  w ← serializeEntries sv (write w ("<<" +:+ String "010"%char "")) ks d;
  Ok (write w ">>").

Definition isArray (v : value) : bool :=
  match v with PdfArray _ => true | _ => false end.

(** The loop of [serializeArray]: [i] is the index, [prev] is
    [previousValueIsArray]. *)
Fixpoint serializeItems (sv : writer -> value -> res writer) (w : writer)
    (i : Z) (prev : bool) (items : list value) : res writer :=
  match items with
  | [] => Ok w
  | d :: items' =>
      let w := if 0 <? i then
                 let sep := if i mod 10 =? 0
                            then (if negb prev then String "010"%char "" else "")
                            else " " in
                 write w sep
               else w in
      w ← sv w d;
      serializeItems sv w (i + 1) (isArray d) items'
  end.

Definition serializeArrayWith (sv : writer -> value -> res writer)
    (w : writer) (items : list value) : res writer :=
  let w := write w "[" in
  let w := {| out := out w; arrayLevel := arrayLevel w + 1 |} in
  w ← serializeItems sv w 0 false items;
  let w := {| out := out w; arrayLevel := arrayLevel w - 1 |} in
  if arrayLevel w =? 0 then Ok (write w "]")
  else Ok (write w ("]" +:+ String "010"%char "")).

Definition CRLF : string := String "013"%char (String "010"%char "").
Definition LF : string := String "010"%char "".

(** [serializeValue]; [fuel] bounds the nesting depth of the value. *)
Fixpoint serializeValue (fuel : nat) (w : writer) (v : value) : res writer :=
  match fuel with
  | O => OutOfFuel
  | S fuel' =>
      match v with
      | pdfBool b => Ok (write w (if b then "true" else "false"))
      | pdfNumber n => serializeNumber w n
      | pdfString s => Ok (write (write (write w "(") s) ")")
      | pdfHexString s => Ok (write w ("<" +:+ fmt_X s +:+ ">"))
      | pdfName s => Ok (write (write w "/") s)
      | pdfDictionaryV d =>
          serializeDictionaryWith (serializeValue fuel') w (keys d) (data d)
      | pdfStream extent sdata =>
          w ← serializeDictionaryWith (serializeValue fuel') w (keys extent) (data extent);
          let w := write w (LF +:+ "stream" +:+ CRLF) in
          let w := write w (string_of_list_ascii sdata) in
          Ok (write w (CRLF +:+ "endstream"))
      | PdfArray items => serializeArrayWith (serializeValue fuel') w items
      | pdfNull => Ok (write w "null")
      | pdfReferenceV r =>
          Ok (write w (fmt_d (ref_id r) +:+ " " +:+ fmt_d (ref_gen r) +:+ " R"))
      | nilValue => Ok w
      end
  end.

Definition serializeDictionary (fuel : nat) (w : writer) (ks : list string)
    (d : gmap string value) : res writer :=
  serializeDictionaryWith (serializeValue fuel) w ks d.

Definition serializeArray (fuel : nat) (w : writer) (items : list value)
  : res writer :=
  serializeArrayWith (serializeValue fuel) w items.

(** [v.(pdfHexString)] *)
Definition asHexString (v : value) : res string :=
  match v with
  | pdfHexString s => Ok s
  | _ => Panic "interface conversion: not a pdfHexString"
  end.

Fixpoint serializeTrailerKeys (fuel : nat) (pdf : PdfFile) (w : writer)
    (lastId : Z) (ks : list string) : res writer :=
  match ks with
  | [] => Ok w
  | k :: ks' =>
      w ← (if String.eqb k "Size" then
             Ok (write w ("/Size " +:+ fmt_d lastId +:+ LF))
           else if String.eqb k "Root" then
             Ok (write w ("/Root " +:+ fmt_d (ref_id (Catalog pdf)) +:+ " "
                            +:+ fmt_d (ref_gen (Catalog pdf)) +:+ " R" +:+ LF))
           else if String.eqb k "Info" then
             Ok (write w ("/Info " +:+ fmt_d (ref_id (Info pdf)) +:+ " "
                            +:+ fmt_d (ref_gen (Info pdf)) +:+ " R" +:+ LF))
           else if String.eqb k "Encrypt" then
             Ok (write w ("/Encrypt " +:+ fmt_d (ref_id (Encrypt pdf)) +:+ " "
                            +:+ fmt_d (ref_gen (Encrypt pdf)) +:+ " R" +:+ LF))
           else if String.eqb k "Id" then
             match Id pdf with
             | None => Panic nil_dereference
             | Some a =>
                 v0 ← idx a 0; h0 ← asHexString v0;
                 v1 ← idx a 1; h1 ← asHexString v1;
                 Ok (write w ("/ID [<" +:+ fmt_X h0 +:+ "> <" +:+ fmt_X h1
                                +:+ ">]" +:+ LF))
             end
           else
             let w := write w ("/" +:+ k +:+ " ") in
             w ← serializeValue fuel w (default nilValue (data (Trailer pdf) !! k));
             Ok (write w LF));
      serializeTrailerKeys fuel pdf w lastId ks'
  end.

Definition serializeTrailer (fuel : nat) (pdf : PdfFile) (w : writer)
    (lastId xrefPos : Z) : res writer :=
  let w := write w ("trailer" +:+ LF +:+ "<<" +:+ LF) in
  w ← serializeTrailerKeys fuel pdf w lastId (keys (Trailer pdf));
  Ok (write w (">>" +:+ LF +:+ "startxref" +:+ LF +:+ fmt_d xrefPos +:+ LF
                 +:+ "%%EOF" +:+ LF)).

(** The loop [for id := 1; id <= n; id++] of [serializeXREF]. *)
Fixpoint serializeXREFEntries (pdf : PdfFile) (w : writer) (k : nat) (id : Z)
  : res writer :=
  match k with
  | O => Ok w
  | S k' =>
      match ObjById pdf !! id with
      | None => Panic nil_dereference          (* obj == nil; obj.start *)
      | Some l =>
          obj ← deref (heap pdf) l;
          let w := write w (fmt_0d 10 (o_start obj) +:+ " " +:+ fmt_0d 5 (o_gen obj)
                              +:+ " n" +:+ CRLF) in
          serializeXREFEntries pdf w k' (id + 1)
      end
  end.

Definition serializeXREF (pdf : PdfFile) (w : writer) : res (writer * (Z * Z)) :=
  let pos := filePos w in
  let w := write w ("xref" +:+ LF) in
  let n := len (Objects pdf) in
  let w := write w (fmt_d 0 +:+ " " +:+ fmt_d (n + 1) +:+ LF) in
  let w := write w (fmt_0d 10 0 +:+ " " +:+ fmt_0d 5 65535 +:+ " f" +:+ CRLF) in
  w ← serializeXREFEntries pdf w (Z.to_nat n) 1;
  Ok (w, (n + 1, pos)).

Definition setStart (o : PdfObject) (start : Z) : PdfObject :=
  {| o_id := o_id o; o_gen := o_gen o; o_start := start; o_stop := o_stop o;
     o_value := o_value o |}.

(** [serializeObjects]: each object's [start] is overwritten in place with
    its new offset. *)
Fixpoint serializeObjectList (fuel : nat) (h : list PdfObject) (w : writer)
    (objs : list loc) : res (list PdfObject * writer) :=
  match objs with
  | [] => Ok (h, w)
  | l :: objs' =>
      obj ← deref h l;
      let obj := setStart obj (filePos w) in
      let h := <[l := obj]> h in
      let w := write w (fmt_d (o_id obj) +:+ " " +:+ fmt_d (o_gen obj) +:+ " obj" +:+ LF) in
      w ← serializeValue fuel w (o_value obj);
      serializeObjectList fuel h (write w (LF +:+ "endobj" +:+ LF)) objs'
  end.

Definition serializeObjects (fuel : nat) (pdf : PdfFile) (w : writer)
  : res (PdfFile * writer) :=
  '(h, w) ← serializeObjectList fuel (heap pdf) w (Objects pdf);
  Ok (set_heap pdf h, w).

Definition serializeFirstLine (pdf : PdfFile) (w : writer) : writer :=
  write (write w (Header pdf))
    (string_of_list_ascii
       (map z2b [0x0a; 0x25; 0xf6; 0xe4; 0xfc; 0xdf; 0x0a])).

(** [Serialize]: the file written, starting from an empty file, and the
    document with the new offsets. [level] is [arrayLevel] on entry. *)
Definition Serialize (fuel : nat) (pdf : PdfFile) (level : Z)
  : res (PdfFile * writer) :=
  let w := {| out := ""; arrayLevel := level |} in
  let w := serializeFirstLine pdf w in
  '(pdf, w) ← serializeObjects fuel pdf w;
  '(w, (last, pos)) ← serializeXREF pdf w;
  w ← serializeTrailer fuel pdf w last pos;
  Ok (pdf, w).



(** ** parse.go: the value parser *)

Inductive hexScanResult :=
| HexDone (off : Z) (hsb : string)
| HexError
| HexOpen (n nibble : Z) (hsb : string).

(** The inner [for] of [getHexString] over [buffer[i:]]. *)
Fixpoint hexScan (l : list ascii) (i n nibble : Z) (hsb : string) : hexScanResult :=
  match l with
  | [] => HexOpen n nibble hsb
  | c :: l' =>
      if isWhite c then hexScan l' (i + 1) n nibble hsb
      else if is_byte c ">" then
        HexDone (i + 1)
          (if Z.land n 1 =? 1 then putc hsb (z2b (nibble * 16)) else hsb)
      else if Z.land n 1 =? 0 then
        let nibble := makeNibbleFromHexChar (b2z c) in
        if nibble =? 0xff then HexError
        else hexScan l' (i + 1) (n + 1) nibble hsb
      else
        let lower := makeNibbleFromHexChar (b2z c) in
        if nibble =? 0xff then HexError
        else hexScan l' (i + 1) (n + 1) nibble (putc hsb (z2b (nibble * 16 + lower)))
  end.

Fixpoint hexStringLoop (fuel : nat) (fi : fileInput) (n nibble : Z) (hsb : string)
  : res (fileInput * string) :=
  match fuel with
  | O => OutOfFuel
  | S fuel' =>
      if offset fi <? 0 then Panic index_out_of_range
      else
        match hexScan (drop (Z.to_nat (offset fi)) (buffer fi)) (offset fi)
                n nibble hsb with
        | HexDone off hsb =>
            fi ← nextToken fuel (set_offset fi off);
            Ok (fi, hsb)
        | HexError => parseErrorf "Not an hexadecimal digit"
        | HexOpen n nibble hsb =>
            '(fi, eof) ← refill (set_offset fi (len (buffer fi)));
            if (eof : bool) then parseErrorf "End of file within a hex string"
            else hexStringLoop fuel' fi n nibble hsb
        end
  end.

Definition getHexString (fuel : nat) (fi : fileInput) : res (fileInput * string) :=
  hexStringLoop fuel fi 0 0 "".

(** The loop of [getName] over [token[1:]]. *)
Fixpoint nameScan (l : list ascii) (name : string) : res string :=
  match l with
  | [] => Ok name
  | c :: l' =>
      if is_byte c "#" then
        match l' with
        | h1 :: h2 :: rest =>
            let c := makeNibbleFromHexChar (b2z h1) in
            if c =? 0xff then parseErrorf "Not an hexadecimal digit"
            else
              let c := (c * 16) mod 256 in
              let c := (c + makeNibbleFromHexChar (b2z h2)) mod 256 in
              if c =? 0xff then parseErrorf "Not an hexadecimal digit"
              else nameScan rest (putc (putc (putc name "#"%char) h1) h2)
        | _ => parseErrorf "Incomplete # escape in name"
        end
      else nameScan l' (putc name c)
  end.

Definition getName (fuel : nat) (fi : fileInput) : res (fileInput * string) :=
  name ← nameScan (drop 1 (bytes (token fi))) "";
  fi ← nextToken fuel fi;
  Ok (fi, name).

Definition getPositiveInteger (token : string) : res (Z * bool) :=
  c ← sidx token 0;
  if ((b2z c <? 48) || (57 <? b2z c)) && negb (is_byte c "+") then Ok (0, false)
  else
    let (n, ok) := ParseInt token 32 in
    if ok then Ok (n, true) else Ok (0, false).

Definition getNumber (fuel : nat) (fi : fileInput) : res (fileInput * value) :=
  match ParseFloat (token fi) with
  | None => parseErrorf "Invalid floating point number"
  | Some rn =>
      fi ← nextToken fuel fi;
      Ok (fi, pdfNumber rn)
  end.

Definition getNumberOrObjRef (fuel : nat) (fi : fileInput) : res (fileInput * value) :=
  '(id, ok) ← getPositiveInteger (token fi);
  if negb ok then getNumber fuel fi
  else
    fi ← nextToken fuel fi;
    '(g, ok) ← getPositiveInteger (token fi);
    if (ok : bool) then
      let fi := saveCurrentToken fi in
      fi ← nextToken fuel fi;
      if String.eqb (token fi) "R" then
        fi ← nextToken fuel fi;
        Ok (fi, pdfReferenceV {| ref_id := id; ref_gen := g |})
      else Ok (restoreCurrentToken fi, pdfNumber (float_of_int id))
    else Ok (fi, pdfNumber (float_of_int id)).

Definition getIndirectObjectDef (fuel : nat) (fi : fileInput)
  : res (fileInput * Z * Z) :=
  let (id, ok) := ParseInt (token fi) 64 in
  if negb ok then Err "Invalid indirect object id"
  else
    fi ← nextToken fuel fi;
    let (gen, ok) := ParseInt (token fi) 64 in
    if negb ok then Err "Invalid indirect object generation"
    else
      fi ← nextToken fuel fi;
      if negb (String.eqb (token fi) "obj") then parseErrorf "invalid object syntax"
      else
        fi ← nextToken fuel fi;
        Ok (fi, id, gen).

(** The loop of [getArray]; [god] is the recursive call to [getObjectDef]. *)
Fixpoint getArrayLoop (god : fileInput -> Z -> res (fileInput * value))
    (fuel : nat) (tokFuel : nat) (fi : fileInput) (stop : Z) (array : list value)
  : res (fileInput * value) :=
  match fuel with
  | O => OutOfFuel
  | S fuel' =>
      if String.eqb (token fi) "]" then
        fi ← nextToken tokFuel fi;
        Ok (fi, PdfArray array)
      else
        match god fi stop with
        | Ok (fi, val) =>
            let array := array ++ [val] in
            if negb (stop =? -1) && (stop <=? getFilePos fi) then
              parseErrorf "Array reached the end of object before ending"
            else getArrayLoop god fuel' tokFuel fi stop array
        | Err e => parseErrorf ("Array element is invalid: " +:+ e)
        | Panic p => Panic p
        | OutOfFuel => OutOfFuel
        end
  end.

Definition getArrayWith (god : fileInput -> Z -> res (fileInput * value))
    (fuel : nat) (fi : fileInput) (stop : Z) : res (fileInput * value) :=
  fi ← nextToken fuel fi;
  getArrayLoop god fuel fuel fi stop [].

(** [n.(pdfNumber)] *)
Definition asNumber (v : value) : res float64 :=
  match v with
  | pdfNumber n => Ok n
  | _ => Panic "interface conversion: not a pdfNumber"
  end.

(** The tail of [getDictionaryOrStream] once [>>] is followed by [stream]. *)
Definition getStreamOf (fuel : nat) (fi : fileInput) (stop : Z)
    (k : list string) (m : gmap string value) : res (fileInput * value) :=
  match m !! "Length" with
  | None => parseErrorf "Stream object without Length in dictionary"
  | Some n =>
      l ← asNumber n;
      '(fi, stream) ← wrapErr "Stream object error: "
                        (getStreamBytes fuel fi (float_to_int l) stop);
      let m := if negb (len stream =? float_to_int l)
               then <["Length" := pdfNumber (float_of_int (len stream))]> m
               else m in
      Ok (fi, pdfStream (mkDictionary k m) stream)
  end.

(** The loop of [getDictionaryOrStream]. *)
Fixpoint getDictionaryLoop (god : fileInput -> Z -> res (fileInput * value))
    (fuel : nat) (tokFuel : nat) (fi : fileInput) (stop : Z)
    (k : list string) (m : gmap string value) : res (fileInput * value) :=
  match fuel with
  | O => OutOfFuel
  | S fuel' =>
      if String.eqb (token fi) ">>" then
        fi ← nextToken tokFuel fi;
        if String.eqb (token fi) "stream" then getStreamOf tokFuel fi stop k m
        else Ok (fi, pdfDictionaryV (mkDictionary k m))
      else
        c ← sidx (token fi) 0;
        if negb (is_byte c "/") then parseErrorf "Dictionary entry is not a name"
        else
          '(fi, pName) ← wrapErr "Dictionary key is invalid: " (getName tokFuel fi);
          let k := k ++ [pName] in
          '(fi, v) ← wrapErr "Dictionary value is invalid: " (god fi stop);
          getDictionaryLoop god fuel' tokFuel fi stop k (<[pName := v]> m)
  end.

Definition getDictionaryOrStreamWith
    (god : fileInput -> Z -> res (fileInput * value))
    (fuel : nat) (fi : fileInput) (stop : Z) : res (fileInput * value) :=
  fi ← nextToken fuel fi;                                     (* skip "<<" *)
  getDictionaryLoop god fuel fuel fi stop [] ∅.

Fixpoint getObjectDef (fuel : nat) (fi : fileInput) (stop : Z)
  : res (fileInput * value) :=
  match fuel with
  | O => OutOfFuel
  | S fuel' =>
      if negb (stop =? -1) && (stop <=? getFilePos fi) then
        parseErrorf "Reached the end of parent object before ending"
      else
        c ← sidx (token fi) 0;
        if is_byte c "t" then
          fi ← checkObjType fuel fi "true"; Ok (fi, pdfBool true)
        else if is_byte c "f" then
          fi ← checkObjType fuel fi "false"; Ok (fi, pdfBool false)
        else if is_byte c "(" then
          '(fi, s) ← getLiteralString fuel fi; Ok (fi, pdfString s)
        else if is_byte c "<" then
          if String.eqb (token fi) "<<" then
            getDictionaryOrStreamWith (getObjectDef fuel') fuel fi stop
          else
            '(fi, s) ← getHexString fuel fi; Ok (fi, pdfHexString s)
        else if is_byte c "/" then
          '(fi, s) ← getName fuel fi; Ok (fi, pdfName s)
        else if is_byte c "[" then
          getArrayWith (getObjectDef fuel') fuel fi stop
        else if is_byte c "s" then
          match checkObjType fuel fi "stream" with
          | Err _ => parseErrorf "stream without dictionary and without length"
          | Ok fi => Ok (fi, nilValue)
          | Panic p => Panic p
          | OutOfFuel => OutOfFuel
          end
        else if is_byte c "n" then
          fi ← checkObjType fuel fi "null"; Ok (fi, pdfNull)
        else if is_byte c "-" || is_byte c "." then getNumber fuel fi
        else if is_byte c "+" then getNumberOrObjRef fuel fi
        else if (b2z c <? 48) || (57 <? b2z c) then
          parseErrorf "Invalid token or number"
        else getNumberOrObjRef fuel fi
  end.

Definition getArray (fuel : nat) (fi : fileInput) (stop : Z)
  : res (fileInput * value) :=
  getArrayWith (getObjectDef fuel) fuel fi stop.

Definition getDictionaryOrStream (fuel : nat) (fi : fileInput) (stop : Z)
  : res (fileInput * value) :=
  getDictionaryOrStreamWith (getObjectDef fuel) fuel fi stop.

(** ** parse.go: bodies, cross-reference tables, trailer, header *)

Definition setObjStart (o : PdfObject) (v : Z) : PdfObject :=
  {| o_id := o_id o; o_gen := o_gen o; o_start := v; o_stop := o_stop o;
     o_value := o_value o |}.
Definition setObjStop (o : PdfObject) (v : Z) : PdfObject :=
  {| o_id := o_id o; o_gen := o_gen o; o_start := o_start o; o_stop := v;
     o_value := o_value o |}.
Definition setObjValue (o : PdfObject) (v : value) : PdfObject :=
  {| o_id := o_id o; o_gen := o_gen o; o_start := o_start o; o_stop := o_stop o;
     o_value := v |}.

(** The object [pf.ObjById[id]] points to, [None] for a nil pointer. *)
Definition objById (pf : PdfFile) (id : Z) : option (loc * PdfObject) :=
  match ObjById pf !! id with
  | None => None
  | Some l => match heap pf !! l with
              | Some o => Some (l, o)
              | None => None
              end
  end.

Fixpoint parseObjectsLoop (fuel : nat) (tokFuel : nat) (pf : PdfFile)
    (fi : fileInput) : res (PdfFile * fileInput) :=
  match fuel with
  | O => OutOfFuel
  | S fuel' =>
      fi ← nextToken tokFuel fi;
      if String.eqb (token fi) "" || String.eqb (token fi) "xref" then Ok (pf, fi)
      else
        let offset := tokFilePos fi in
        '(fi, id, gen) ← wrapErr "Indirect Object ID or generation: "
                           (getIndirectObjectDef tokFuel fi);
        match objById pf id with
        | None => Panic nil_dereference                  (* objDef.stop *)
        | Some (l, objDef) =>
            if o_gen objDef =? gen then
              let objDef := if o_start objDef =? -1
                            then setObjStart objDef offset else objDef in
              let pf := set_heap pf (<[l := objDef]> (heap pf)) in
              '(fi, obj) ← wrapErr "Indirect Object has an invalid definition: "
                             (getObjectDef tokFuel fi (o_stop objDef));
              if negb (String.eqb (token fi) "endobj") then
                parseErrorf "Indirect Object does not end with 'endobj'"
              else
                let objDef := setObjValue objDef obj in
                let objDef := if o_stop objDef =? -1
                              then setObjStop objDef (tokFilePos fi) else objDef in
                let pf := set_heap pf (<[l := objDef]> (heap pf)) in
                let pf := set_Objects pf (Objects pf ++ [l]) in
                parseObjectsLoop fuel' tokFuel pf fi
            else
              fi ← skipInBufferTo fi (o_stop objDef);
              parseObjectsLoop fuel' tokFuel pf fi
        end
  end.

Definition parseObjects (fuel : nat) (pf : PdfFile) (fi : fileInput)
    (objStart objEnd : Z) : res (PdfFile * fileInput) :=
  fi ← (if negb (objEnd =? 0)
        then ignoreErr fi (fillBuffer fi (objEnd - objStart) objStart)
        else Ok fi);
  parseObjectsLoop fuel fuel pf fi.

(** The first loop of [parseXrefSubsection]: it reads [k] more entries,
    [i] being the index of the next one. [boundaries] holds the in-use
    entries read so far, so [nInUse] is its length. *)
Fixpoint xrefEntries (k : nat) (fi : fileInput) (end_ maxObjPos start i : Z)
    (boundaries : list PdfObject) (badOffset : Z)
  : res (fileInput * list PdfObject * Z) :=
  match k with
  | O => Ok (fi, boundaries, badOffset)
  | S k' =>
      fi ← (if end_ <? offset fi then
              '(fi, _) ← refill fi; Ok fi
            else Ok fi);
      let sepPos := offset fi + 10 in
      os ← bufSlice fi (offset fi) sepPos;
      '(off, ok) ← getPositiveInteger (string_of_list_ascii os);
      if negb ok then parseErrorf "Incorrect XREF offset"
      else
        gs ← bufSlice fi (sepPos + 1) (sepPos + 6);
        '(gen, ok) ← getPositiveInteger (string_of_list_ascii gs);
        if negb ok then parseErrorf "Incorrect XREF generation number"
        else
          c ← idx (buffer fi) (sepPos + 7);
          inUse ← (if is_byte c "n" then Ok true
                   else if is_byte c "f" then Ok false
                   else (b ← idx (bytes_ fi) 17;
                         parseErrorf "Incorrect XREF keyword"));
          let next := set_offset fi (offset fi + XREF_ENTRY_SIZE) in
          if (inUse : bool) then
            let nInUse := len boundaries in
            if negb (badOffset =? -1) || (maxObjPos <? off) then
              if negb (fix_ fi) then
                parseErrorf "Incorrect XREF object offset (beyond object boundary)"
              else
                let badOffset := if badOffset =? -1 then nInUse else badOffset in
                xrefEntries k' next end_ maxObjPos start (i + 1)
                  (boundaries ++ [{| o_id := start + i; o_gen := gen;
                                     o_start := -1; o_stop := -1;
                                     o_value := nilValue |}])
                  badOffset
            else
              xrefEntries k' next end_ maxObjPos start (i + 1)
                (boundaries ++ [{| o_id := start + i; o_gen := gen;
                                   o_start := off; o_stop := -1;
                                   o_value := nilValue |}])
                badOffset
          else xrefEntries k' next end_ maxObjPos start (i + 1) boundaries badOffset
  end.

(** [objBoundaries.Less] *)
Definition lessStart (a b : PdfObject) : bool := o_start a <? o_start b.

(** [for i := 0; i < nInUse - 1; i++ { boundaries[i].stop = boundaries[i+1].start }] *)
Fixpoint linkStops (bs : list PdfObject) : list PdfObject :=
  match bs with
  | a :: (b :: _) as rest => setObjStop a (o_start b) :: linkStops rest
  | _ => bs
  end.

(** [for i := 0; i < badOffset - 1; i++ { boundaries[i].start = -1 }] *)
Fixpoint invalidate (k : nat) (bs : list PdfObject) : res (list PdfObject) :=
  match k with
  | O => Ok bs
  | S k' =>
      match bs with
      | [] => Panic index_out_of_range
      | b :: bs' =>
          bs' ← invalidate k' bs';
          Ok (setObjStart b (-1) :: bs')
      end
  end.

(** The last loop of [parseXrefSubsection]: an entry goes into [ObjById]
    only if its id is not there yet. The object is allocated here; until
    then only [boundaries] refers to it. *)
Fixpoint mergeBoundaries (pf : PdfFile) (bs : list PdfObject) : PdfFile :=
  match bs with
  | [] => pf
  | b :: bs' =>
      let pf :=
        match ObjById pf !! o_id b with
        | Some _ => pf
        | None =>
            let l := length (heap pf) in
            set_ObjById (set_heap pf (heap pf ++ [b])) (<[o_id b := l]> (ObjById pf))
        end in
      mergeBoundaries pf bs'
  end.

(** The boundaries of a subsection once their offsets have been read:
    sorted and chained when all offsets were valid, else invalidated. *)
Definition settleBoundaries (boundaries : list PdfObject) (badOffset : Z)
  : res (list PdfObject) :=
  if badOffset =? -1 then Ok (linkStops (sort_Sort lessStart boundaries))
  else invalidate (Z.to_nat (badOffset - 1)) boundaries.

Definition parseXrefSubsection (pf : PdfFile) (fi : fileInput)
    (maxObjPos start number : Z) : res (PdfFile * fileInput) :=
  let end_ := len (buffer fi) - XREF_ENTRY_SIZE in
  '(fi, boundaries, badOffset) ←
     xrefEntries (Z.to_nat number) fi end_ maxObjPos start 0 [] (-1);
  boundaries ← settleBoundaries boundaries badOffset;
  Ok (mergeBoundaries pf boundaries, fi).

Fixpoint parseXrefTableLoop (fuel : nat) (tokFuel : nat) (pf : PdfFile)
    (fi : fileInput) (xrefStart : Z) : res (PdfFile * fileInput) :=
  match fuel with
  | O => OutOfFuel
  | S fuel' =>
      if negb (String.eqb (token fi) "xref") then Ok (pf, fi)
      else
        fi ← nextToken tokFuel fi;
        '(start, ok) ← getPositiveInteger (token fi);
        if negb ok then parseErrorf "Incorrect xref section: start"
        else
          fi ← nextToken tokFuel fi;
          '(number, ok) ← getPositiveInteger (token fi);
          if negb ok then parseErrorf "Incorrect xref section: number"
          else
            fi ← skipSpaces tokFuel fi false;
            '(pf, fi) ← wrapErr "Incorrect xref section: "
                          (parseXrefSubsection pf fi xrefStart start number);
            fi ← nextToken tokFuel fi;
            parseXrefTableLoop fuel' tokFuel pf fi xrefStart
  end.

Definition parseXrefTable (fuel : nat) (pf : PdfFile) (fi : fileInput)
    (xrefStart xrefEnd : Z) : res (PdfFile * fileInput) :=
  let pf := set_ObjById pf ∅ in          (* pf.ObjById = make( map..., size ) *)
  fi ← ignoreErr fi (fillBuffer fi (xrefEnd - xrefStart) xrefStart);
  fi ← nextToken fuel fi;
  parseXrefTableLoop fuel fuel pf fi xrefStart.

Definition getRefFromTrailer (dic : pdfDictionary) (key : string)
  : option pdfReference :=
  match data dic !! key with
  | Some (pdfReferenceV r) => Some r
  | _ => None
  end.

Definition isHexString (v : value) : bool :=
  match v with pdfHexString _ => true | _ => false end.

Definition nullRef : pdfReference := {| ref_id := 0; ref_gen := 0 |}.

Definition parseTrailer (fuel : nat) (pf : PdfFile) (fi : fileInput)
  : res (PdfFile * fileInput * Z) :=
  if negb (String.eqb (token fi) "trailer") then parseErrorf "No trailer found"
  else
    fi ← nextToken fuel fi;
    if negb (String.eqb (token fi) "<<") then
      parseErrorf "Trailer does not have a dictionary"
    else
      '(fi, dos) ← wrapErr "Trailer dictionary is invalid: "
                     (getDictionaryOrStream fuel fi (stopAt fi));
      match dos with
      | pdfDictionaryV dic =>
          let pf := set_Trailer pf dic in
          match data dic !! "Size" with
          | None => parseErrorf "Trailer dictionary does not provide XREF size"
          | Some v =>
              n ← asNumber v;
              let pf := set_Size pf (float_to_int n) in
              match getRefFromTrailer dic "Root" with
              | None => parseErrorf "Trailer dictionary does not provide root catalog"
              | Some r =>
                  let pf := set_Catalog pf r in
                  let pf := match getRefFromTrailer dic "Encrypt" with
                            | Some r => set_Encrypt pf r
                            | None => pf
                            end in
                  let pf := match getRefFromTrailer dic "Info" with
                            | Some r => set_Info pf r
                            | None => pf
                            end in
                  pf ← match data dic !! "ID" with
                       | Some (PdfArray a) =>
                           let pf := set_Id pf (Some a) in
                           a0 ← idx a 0;
                           if negb (isHexString a0) then
                             parseErrorf "ID #0 is not an hexString"
                           else
                             a1 ← idx a 1;
                             if negb (isHexString a1) then
                               parseErrorf "ID #1 is not an hexString"
                             else Ok pf
                       | _ => Ok pf
                       end;
                  if negb (String.eqb (token fi) "startxref") then
                    parseErrorf "Trailer does not have a start xref"
                  else
                    fi ← nextToken fuel fi;
                    '(_, ok) ← getPositiveInteger (token fi);
                    if negb ok then
                      parseErrorf "Trailer does not have a valid start xref offset"
                    else
                      fi ← skipSpaces fuel fi true;
                      '(fi, isEof) ← eofComment fi;
                      if negb isEof then
                        parseErrorf "Trailer does not have a correct EOF"
                      else
                        match data dic !! "Prev" with
                        | Some (pdfNumber v) => Ok (pf, fi, float_to_int v)
                        | _ => Ok (pf, fi, 0)
                        end
              end
          end
      | _ => parseErrorf "Trailer does not have a dictionary (unexpected stream)"
      end.

(** [fi.fd.Read( b )] into the first [k] bytes of the backing array. *)
Definition readInto (fi : fileInput) (k : Z) : fileInput * bool :=
  let (got, eof) := fdRead fi (fd_pos fi) k in
  let arr := got ++ drop (length got) (backing fi) in
  let n := length (buffer fi) in
  let fi := set_fd_pos fi (fd_pos fi + len got) in
  let fi := set_buffer fi (take n arr) in
  (set_spare fi (drop n arr), eof).

(** The recovery loop of [huntForXref]. *)
Fixpoint searchXref (fuel : nat) (fi : fileInput) (endSearch back : Z)
  : res (fileInput * Z) :=
  match fuel with
  | O => OutOfFuel
  | S fuel' =>
      window ← bufSlice fi 0 endSearch;
      let startXref := bytesLastIndex window (bytes "xref") in
      if negb (startXref =? -1) then Ok (fi, startXref + bStart fi)
      else
        let endSearch := _STARTXREF_SIZE + 5 in
        let back := back + _STARTXREF_SIZE in
        if size_ fi - back <? 0 then Err "No XREF section"
        else
          let fi := set_fd_pos fi (size_ fi - back) in
          let fi := set_bStart fi (size_ fi - back) in
          let (fi, eof) := readInto fi endSearch in
          if eof then parseErrorf "Unable to read file"
          else searchXref fuel' fi endSearch back
  end.

Definition huntForXref (fuel : nat) (fi : fileInput) : res (fileInput * Z) :=
  let fi := set_offset fi 0 in
  if size_ fi - _STARTXREF_SIZE <? 0 then Err "Empty file"
  else
    let start := size_ fi - _STARTXREF_SIZE in
    let fi := set_fd_pos fi start in
    let fi := set_bStart fi start in
    let (fi, eof) := readInto fi (len (buffer fi)) in
    if eof then parseErrorf "Unable to read file"
    else
      let tok := bytes "startxref" in
      let offset := bytesLastIndex (buffer fi) tok in
      if offset =? -1 then parseErrorf "No 'startxref' in file"
      else
        let fi := set_offset fi offset in
        let endSearch := offset in
        let endToken := offset + len tok in
        c ← idx (buffer fi) endToken;
        endToken ←
          (if b2z c =? 13 then
             if _STARTXREF_SIZE <=? endToken then parseErrorf "Missing startxref value"
             else
               c1 ← idx (buffer fi) (endToken + 1);
               if b2z c1 =? 10 then Ok (endToken + 2) else Ok (endToken + 1)
           else if b2z c =? 10 then Ok (endToken + 1)
           else Ok endToken);
        let fi := set_offset fi endToken in
        rest ← bufFrom fi endToken;
        let endLine := bytesIndexAny rest CRLF in
        if endLine =? -1 then parseErrorf "Missing startxref value"
        else
          let endLine := endLine + endToken in
          digits ← bufSlice fi endToken endLine;
          let (startXref, ok) := ParseInt (string_of_list_ascii digits) 64 in
          if negb ok then Err "Invalid startxref value"
          else if size_ fi <? startXref then
            if negb (fix_ fi) then
              parseErrorf "Startxref value is beyond end of file"
            else searchXref fuel fi endSearch _STARTXREF_SIZE
          else Ok (fi, startXref).

Fixpoint skipToEOLFrom (l : list ascii) (offset : Z) : Z :=
  match l with
  | [] => offset + 1
  | c :: l' =>
      if b2z c =? 0x0d then
        match l' with
        | [] => offset + 1
        | next :: _ => if negb (b2z next =? 0x0a) then offset + 1 else offset + 2
        end
      else if b2z c =? 0x0a then offset + 1
      else skipToEOLFrom l' (offset + 1)
  end.

Definition skipToEOL (buffer : list ascii) (offset : Z) : Z :=
  skipToEOLFrom (drop (Z.to_nat offset) buffer) offset.

(** [buffer[i]] of a byte known to be in range. *)
Definition at_ (l : list ascii) (i : Z) : ascii :=
  default zero (l !! Z.to_nat i).

Definition readFirstLine (fi : fileInput) : res (fileInput * string) :=
  match fillBuffer fi 512 0 with
  | Err _ => parseErrorf "Empty file"
  | Panic p => Panic p
  | OutOfFuel => OutOfFuel
  | Ok fi =>
      let buf := buffer fi in
      let end_ := len buf in
      if (end_ <? 9) || negb (is_byte (at_ buf 0) "%")
         || negb (is_byte (at_ buf 1) "P") || negb (is_byte (at_ buf 2) "D")
         || negb (is_byte (at_ buf 3) "F") || negb (is_byte (at_ buf 4) "-")
         || negb (is_byte (at_ buf 5) "1") || negb (is_byte (at_ buf 6) ".")
      then parseErrorf "Not a PDF document"
      else
        let fi := set_offset fi 8 in
        fi ← (if b2z (at_ buf 8) =? 0x0d then
                if end_ =? 9 then Ok fi
                else if b2z (at_ buf 9) =? 0x0a
                     then Ok (set_offset fi (offset fi + 1)) else Ok fi
              else if b2z (at_ buf 8) =? 0x0a then Ok fi
              else parseErrorf "Invalid file header");
        let fi := set_offset fi (offset fi + 1) in
        let i := offset fi in
        if end_ - 5 <=? i then parseErrorf "End of PDF file without content"
        else
          let fi :=
            if negb (is_byte (at_ buf i) "%") || (b2z (at_ buf (i + 1)) <? 0x80)
               || (b2z (at_ buf (i + 2)) <? 0x80) || (b2z (at_ buf (i + 3)) <? 0x80)
               || (b2z (at_ buf (i + 4)) <? 0x80)
            then fi
            else set_offset fi (skipToEOL buf (i + 5)) in
          Ok (fi, string_of_list_ascii (take 8 buf))
  end.

Definition parseHeader (pf : PdfFile) (fi : fileInput) : res (PdfFile * fileInput) :=
  '(fi, header) ← readFirstLine fi;
  let pf := set_Header pf header in
  c ← sidx (Header pf) 7;
  let minor := (b2z c - 0x30) mod 256 in
  Ok (set_Version pf ("1." +:+ fmt_d minor), fi).

(** [new( PdfFile )] *)
Definition newPdfFile : PdfFile :=
  {| Version := ""; Header := ""; Objects := []; ObjById := ∅;
     Trailer := mkDictionary [] ∅; Size := 0; Catalog := nullRef;
     Encrypt := nullRef; Info := nullRef; Id := None; heap := [] |}.

(** The loop of [parse] over the blocks, from the last update to the
    first; [i] counts the blocks done. *)
Fixpoint parseBlocks (fuel : nat) (tokFuel : nat) (pf : PdfFile) (fi : fileInput)
    (i : Z) (xrefStart blockEnd : Z) : res (PdfFile * fileInput * Z) :=
  match fuel with
  | O => OutOfFuel
  | S fuel' =>
      let objEnd := xrefStart in
      '(pf, fi) ← wrapErr "PDF Parser: invalid XREF table: "
                    (parseXrefTable tokFuel pf fi xrefStart blockEnd);
      let blockEnd := xrefStart in
      '(pf, fi, xrefStart) ← wrapErr "PDF Parser: invalid trailer: "
                               (parseTrailer tokFuel pf fi);
      if xrefStart =? 0 then Ok (pf, fi, objEnd)
      else
        '(pf, fi) ← (if 0 <? i then
                       wrapErr "PDF Parser: invalid body: "
                         (parseObjects tokFuel pf fi 0 0)
                     else Ok (pf, fi));
        parseBlocks fuel' tokFuel pf fi (i + 1) xrefStart blockEnd
  end.

Definition parse (fuel : nat) (fi : fileInput) : res PdfFile :=
  let pf := newPdfFile in
  '(pf, fi) ← wrapErr "PDF Parser: incorrect file header: " (parseHeader pf fi);
  let mainObjStart := offset fi in
  '(fi, xrefStart) ← wrapErr "PDF Parser: cannot find XREF: " (huntForXref fuel fi);
  let pf := set_ObjById pf ∅ in
  let blockEnd := size_ fi in
  '(pf, fi, objEnd) ← parseBlocks fuel fuel pf fi 0 xrefStart blockEnd;
  '(pf, fi) ← wrapErr "PDF Parser: invalid body: "
                (parseObjects fuel pf fi mainObjStart objEnd);
  Ok pf.

(** [newFileInput] on a file that opens, with the given content. *)
Definition newFileInput (content : list ascii) (verbose fix_ : bool) : fileInput :=
  {| fd_content := content; fd_pos := 0; size_ := len content;
     bStart := 0; stopAt := 0;
     buffer := replicate 512 zero; spare := [];
     offset := 0; bytes_ := []; token := ""; tokFilePos := 0;
     savedToken := ""; savedOffset := 0; savedPos := 0;
     verbose := verbose; fix_ := fix_ |}.

(** [Parse] of the file with the given content. *)
Definition Parse (fuel : nat) (content : list ascii) (verbose fix_ : bool)
  : res PdfFile :=
  parse fuel (newFileInput content verbose fix_).

End Model.

(** ** A concrete instance of the library interfaces

    Concrete runs need concrete numbers and a concrete sort. Numbers are
    decimals [(-1)^neg * m * 10^e] with [m] not a multiple of 10: for the
    plain decimal literals of a PDF file with at most 15 significant
    digits the shortest decimal that [%g] prints for the [float64] nearest
    to the literal is the literal itself, so on those the instance agrees
    with [strconv.ParseFloat] followed by [%g]. The sort is the insertion
    sort [sort.Sort] runs on short slices. *)

Module Dec.

Record dec := { neg : bool; mant : N; exp10 : Z }.

Fixpoint stripZeros (fuel : nat) (m : N) (e : Z) : N * Z :=
  match fuel with
  | O => (m, e)
  | S fuel' =>
      if (m =? 0)%N then (0%N, 0)
      else if (m mod 10 =? 0)%N then stripZeros fuel' (m / 10)%N (e + 1)
      else (m, e)
  end.

Definition normal (s : bool) (m : N) (e : Z) : dec :=
  let (m, e) := stripZeros (S (N.to_nat (N.log2 m))) m e in
  {| neg := s; mant := m; exp10 := e |}.

Definition splitAt (c : ascii) (s : string) : string * option string :=
  let i := bytesIndex (bytes s) [c] in
  if i =? -1 then (s, None)
  else (string_of_list_ascii (take (Z.to_nat i) (bytes s)),
        Some (string_of_list_ascii (drop (Z.to_nat i + 1) (bytes s)))).

(** Plain decimal literals: [[+-]digits[.digits]], at least one digit. *)
Definition parse (s : string) : option dec :=
  match s with
  | EmptyString => None
  | String c s' =>
      let sign := is_byte c "-" in
      let body := if is_byte c "+" || sign then s' else s in
      let (ip, fp) := splitAt "."%char body in
      let fp := default "" fp in
      if (String.length ip + String.length fp =? 0)%nat then None
      else
        match parseDigits (ip +:+ fp) 0 with
        | None => None
        | Some m => Some (normal sign (Z.to_N m) (- slen fp))
        end
  end.

Definition digitsOf (m : N) : string := NilZero.string_of_uint (N.to_uint m).

Definition fmtExp (e : Z) : string :=
  let d := digitsOf (Z.to_N (Z.abs e)) in
  (if e <? 0 then "-" else "+") +:+ (if Z.abs e <? 10 then "0" +:+ d else d).

(** [%g] with the shortest digits: [%e] when the exponent is below -4 or
    at least 6, [%f] otherwise. *)
Definition formatG (x : dec) : string :=
  let sign := if neg x then "-" else "" in
  if (mant x =? 0)%N then sign +:+ "0"
  else
    let ds := digitsOf (mant x) in
    let nd := slen ds in
    let dp := nd + exp10 x in
    let e := dp - 1 in
    if (e <? -4) || (6 <=? e) then
      match ds with
      | EmptyString => sign
      | String d rest =>
          sign +:+ String d (if (String.length rest =? 0)%nat then ""
                             else "." +:+ rest)
          +:+ "e" +:+ fmtExp e
      end
    else if dp <=? 0 then sign +:+ "0." +:+ zeros (Z.to_nat (- dp)) +:+ ds
    else if nd <=? dp then sign +:+ ds +:+ zeros (Z.to_nat (dp - nd))
    else
      sign +:+ string_of_list_ascii (take (Z.to_nat dp) (bytes ds)) +:+ "."
      +:+ string_of_list_ascii (drop (Z.to_nat dp) (bytes ds)).

Definition toInt (x : dec) : Z :=
  let m := Z.of_N (mant x) in
  let v := if 0 <=? exp10 x then m * 10 ^ exp10 x else m / 10 ^ (- exp10 x) in
  if neg x then - v else v.

Definition ofInt (z : Z) : dec := normal (z <? 0) (Z.to_N (Z.abs z)) 0.

Definition float : GoFloat := {|
  float64 := dec;
  ParseFloat := parse;
  FormatG := formatG;
  float_to_int := toInt;
  float_of_int := ofInt
|}.

Section Insertion.
Context {A : Type} (less : A -> A -> bool).

Fixpoint insert (x : A) (l : list A) : list A :=
  match l with
  | [] => [x]
  | y :: l' => if less x y then x :: l else y :: insert x l'
  end.

Fixpoint insertionSort (l : list A) : list A :=
  match l with
  | [] => []
  | x :: l' => insert x (insertionSort l')
  end.

End Insertion.

Definition sorter : GoSort := {| sort_Sort := @insertionSort |}.

End Dec.

(** * Concrete inputs *)

(** The bytes of a text file given line by line, each line ended by LF. *)
Definition pdfLines (ls : list string) : list ascii :=
  concat (map (fun l => bytes l ++ ["010"%char]) ls).

(** A body of four objects with its cross-reference table and trailer,
    then one incremental update that redefines object 4 with generation 1
    and whose trailer points back with [/Prev]. *)
Definition updatedPdf : list ascii :=
  pdfLines [
    "%PDF-1.4";
    "%" +:+ string_of_list_ascii (map z2b [0xf6; 0xe4; 0xfc; 0xdf]);
    "1 0 obj";
    "<< /Type /Catalog /Pages 2 0 R >>";
    "endobj";
    "2 0 obj";
    "<< /Type /Pages /Kids [ ] /Count 0 >>";
    "endobj";
    "3 0 obj";
    "(padding padding padding padding padding padding padding padding padding padding padding padding padding padding padding padding padding padding padding padding padding padding padding padding padding padding padding padding padding padding padding padding padding padding padding padding padding padding padding padding padding padding padding padding padding padding padding padding padding padding padding padding padding padding padding )";
    "endobj";
    "4 0 obj";
    "(first)";
    "endobj";
    "xref";
    "0 5";
    "0000000000 65535 f ";
    "0000000015 00000 n ";
    "0000000064 00000 n ";
    "0000000117 00000 n ";
    "0000000575 00000 n ";
    "trailer";
    "<< /Size 5 /Root 1 0 R >>";
    "startxref";
    "598";
    "%%EOF";
    "4 1 obj";
    "(second)";
    "endobj";
    "xref";
    "4 1";
    "0000000761 00001 n ";
    "trailer";
    "<< /Size 5 /Root 1 0 R /Prev 598 >>";
    "startxref";
    "785";
    "%%EOF"
  ].

(** The same body without update, under the header [%PDF-1.9]. *)
Definition pdf19 : list ascii :=
  pdfLines [
    "%PDF-1.9";
    "%" +:+ string_of_list_ascii (map z2b [0xf6; 0xe4; 0xfc; 0xdf]);
    "1 0 obj";
    "<< /Type /Catalog /Pages 2 0 R >>";
    "endobj";
    "2 0 obj";
    "<< /Type /Pages /Kids [ ] /Count 0 >>";
    "endobj";
    "3 0 obj";
    "(padding padding padding padding padding padding padding padding padding padding padding padding padding padding padding padding padding padding padding padding padding padding padding padding padding padding padding padding padding padding padding padding padding padding padding padding padding padding padding padding padding padding padding padding padding padding padding padding padding padding padding padding padding padding padding )";
    "endobj";
    "4 0 obj";
    "(first)";
    "endobj";
    "xref";
    "0 5";
    "0000000000 65535 f ";
    "0000000015 00000 n ";
    "0000000064 00000 n ";
    "0000000117 00000 n ";
    "0000000575 00000 n ";
    "trailer";
    "<< /Size 5 /Root 1 0 R >>";
    "startxref";
    "598";
    "%%EOF"
  ].

(** A subsection of three in-use entries, the second beyond the table. *)
Definition badSubsection : list ascii :=
  pdfLines [
    "0000000100 00000 n ";
    "0000099999 00000 n ";
    "0000000200 00000 n ";
    "trailer"
  ].

(** A subsection of three in-use entries and a free one, out of order. *)
Definition goodSubsection : list ascii :=
  pdfLines [
    "0000000300 00000 n ";
    "0000000100 00000 n ";
    "0000000200 00000 f ";
    "0000000200 00000 n ";
    "trailer"
  ].

(** The input state once the buffer holds [text]. *)
Definition filled (text : list ascii) (fix_ : bool) : fileInput :=
  match fillBuffer (newFileInput text false fix_) (len text) 0 with
  | Ok fi => fi
  | _ => newFileInput text false fix_
  end.

Section Observations.
Context `{GoFloat} `{GoSort}.

(** The input state on a text whose first token has been read. *)
Definition onText (fuel : nat) (text : list ascii) (fix_ : bool) : res fileInput :=
  fi ← fillBuffer (newFileInput text false fix_) (len text) 0;
  nextToken fuel fi.

Definition emptyWriter : writer := {| out := ""; arrayLevel := 0 |}.

(** What the document records for an object id: generation, start and
    stop offsets of the object [ObjById] points to. *)
Definition entry (pf : PdfFile) (id : Z) : option (Z * Z * Z) :=
  (fun lo => (o_gen (snd lo), o_start (snd lo), o_stop (snd lo)))
    <$> objById pf id.

(** The text [serializeValue] writes for the value of an object id. *)
Definition entryText (pf : PdfFile) (id : Z) : res string :=
  match objById pf id with
  | None => Ok ""
  | Some (_, o) => w ← serializeValue 100 emptyWriter (o_value o); Ok (out w)
  end.

(** [parseXrefSubsection] on a new document, for a buffer filled with
    [text]: the entries recorded for the ids in [ids]. *)
Definition subsectionEntries (text : list ascii) (fix_ : bool)
    (maxObjPos start number : Z) (ids : list Z)
  : res (list (option (Z * Z * Z))) :=
  fi ← fillBuffer (newFileInput text false fix_) (len text) 0;
  '(pf, _) ← parseXrefSubsection newPdfFile fi maxObjPos start number;
  Ok (map (entry pf) ids).

(** A document of one object, filed under id 2: id 1 is a gap. *)
Definition gapPdf : PdfFile :=
  let obj := {| o_id := 2; o_gen := 0; o_start := 0; o_stop := -1;
                o_value := pdfNull |} in
  set_heap (set_ObjById (set_Objects newPdfFile [0%nat]) {[ 2 := 0%nat ]}) [obj].

(** An in-use entry as [parseXrefSubsection] creates it. *)
Definition xrefObject (id gen start : Z) : PdfObject :=
  {| o_id := id; o_gen := gen; o_start := start; o_stop := -1;
     o_value := nilValue |}.

End Observations.

(** * Specifications *)

(** ** The file header

    What [readFirstLine] requires of the first bytes of a file: at least
    nine bytes, the seven bytes [%PDF-1.], any eighth byte, and a CR or an
    LF as the ninth. *)

Definition isEOL (c : ascii) : bool := (b2z c =? 13) || (b2z c =? 10).

Definition headerAccepted (content : list ascii) : bool :=
  (9 <=? len content) && hasPrefix content (bytes "%PDF-1.")
  && isEOL (at_ content 8).

(** The seven comparisons of [readFirstLine]. *)
Definition headerChecks (buf : list ascii) : bool :=
  is_byte (at_ buf 0) "%" && is_byte (at_ buf 1) "P" && is_byte (at_ buf 2) "D"
  && is_byte (at_ buf 3) "F" && is_byte (at_ buf 4) "-" && is_byte (at_ buf 5) "1"
  && is_byte (at_ buf 6) ".".

(** ** Cross-reference subsections *)

(** The contract of [sort.Sort]: the result is a rearrangement of the
    slice in which no element is [Less] than an earlier one, provided
    [Less] is a strict weak order. *)
Class GoSortSpec `{GoSort} : Prop := {
  sort_Sort_perm : forall (A : Type) (less : A -> A -> bool) (l : list A),
    sort_Sort less l ≡ₚ l;
  sort_Sort_sorted : forall (A : Type) (less : A -> A -> bool),
    (forall a, less a a = false) ->
    (forall a b c, less a b = true -> less b c = true -> less a c = true) ->
    (forall a b c, less a b = false -> less b c = false -> less a c = false) ->
    forall l, StronglySorted (fun a b => less b a = false) (sort_Sort less l)
}.

Section XrefSpec.
Context `{GoFloat}.

(** What an entry of the table says about an object. *)
Definition entryKey (o : PdfObject) : Z * Z * Z := (o_id o, o_gen o, o_start o).

Definition sortedByStart (bs : list PdfObject) : Prop :=
  StronglySorted Z.le (o_start <$> bs).

(** Each entry stops where the next one starts. *)
Definition chained (bs : list PdfObject) : Prop :=
  forall i a b, bs !! i = Some a -> bs !! S i = Some b -> o_stop a = o_start b.

(** What [xrefEntries] guarantees of the entries it appends. *)
Definition freshEntry (maxObjPos bad : Z) (b : PdfObject) : Prop :=
  o_stop b = -1 /\ (bad = -1 -> 0 <= o_start b <= maxObjPos).

End XrefSpec.

(** ** Dictionaries *)

(** The keys of a source in their order of first appearance. *)
Fixpoint firstOccurrences (seen ks : list string) : list string :=
  match ks with
  | [] => []
  | k :: ks' =>
      if decide (k ∈ seen) then firstOccurrences seen ks'
      else k :: firstOccurrences (k :: seen) ks'
  end.

(** The text of a dictionary body: one line [/key text] per key. *)
Fixpoint entriesText (ks ts : list string) : string :=
  match ks, ts with
  | k :: ks', t :: ts' =>
      "/" +:+ k +:+ " " +:+ t +:+ LF +:+ entriesText ks' ts'
  | _, _ => ""
  end.

Section DictionarySpec.
Context `{GoFloat}.

(** [readsEntries god fuel stop fi entries fiEnd]: from the current token
    of [fi] the source holds the names and values [entries], one after the
    other, and then the token [>>], reached in state [fiEnd]. *)
Inductive readsEntries (god : fileInput -> Z -> res (fileInput * value))
    (fuel : nat) (stop : Z)
  : fileInput -> list (string * value) -> fileInput -> Prop :=
| reads_end (fi : fileInput) :
    token fi = ">>" -> readsEntries god fuel stop fi [] fi
| reads_entry (fi fi1 fi2 fiEnd : fileInput) (name : string) (v : value)
      (rest : list (string * value)) :
    token fi <> ">>" ->
    sidx (token fi) 0 = Ok "/"%char ->
    getName fuel fi = Ok (fi1, name) ->
    god fi1 stop = Ok (fi2, v) ->
    readsEntries god fuel stop fi2 rest fiEnd ->
    readsEntries god fuel stop fi ((name, v) :: rest) fiEnd.

(** The map after the entries have been stored one after the other. *)
Definition bindAll (m : gmap string value) (entries : list (string * value))
  : gmap string value :=
  foldl (fun m e => <[e.1 := e.2]> m) m entries.

(** A value that [sv] writes as the text [t]. *)
Definition emits (sv : writer -> value -> res writer) (v : value) (t : string)
  : Prop :=
  exists w w', sv w v = Ok w' /\ out w' = out w +:+ t.

(** The file of [w'] is the file of [w] with some text appended. *)
Definition extends (w w' : writer) : Prop := exists t, out w' = out w +:+ t.

End DictionarySpec.

(** A dictionary that names the key [A] twice. *)
Definition repeatedKey : list ascii := bytes "<< /A 1 /B 2 /A 3 >> endobj ".

(** A dictionary with distinct keys. *)
Definition distinctKeys : list ascii := bytes "<< /A 1 /B 2 >> endobj ".

Section DictionaryRuns.
Context `{GoFloat}.

(** [getDictionaryOrStream] on a text that begins with [<<]. *)
Definition dictionaryOf (fuel : nat) (text : list ascii)
  : res (fileInput * value) :=
  fi ← onText fuel text false;
  getDictionaryOrStream fuel fi (-1).

(** The ordered key list of the dictionary parsed from [text]. *)
Definition parsedKeys (fuel : nat) (text : list ascii) : res (list string) :=
  '(_, v) ← dictionaryOf fuel text;
  match v with
  | pdfDictionaryV d => Ok (keys d)
  | _ => Err "not a dictionary"
  end.

(** The text [serializeValue] writes for the value parsed from [text]. *)
Definition roundTrip (fuel : nat) (text : list ascii) : res string :=
  '(_, v) ← dictionaryOf fuel text;
  w ← serializeValue fuel emptyWriter v;
  Ok (out w).

(** The input state on [distinctKeys] with the token [tok], read at file
    position [pos], and the buffer offset [off] after it. *)
Definition dictState (off : Z) (tok : string) (pos : Z) : fileInput :=
  set_savedOffset
    (set_tokFilePos (set_token (set_offset (filled distinctKeys false) off) tok)
       pos) pos.

End DictionaryRuns.

(** * Properties *)

(** ** Stream decoders *)

(** C7 (code defect). [checkASCIIHexDecode] tests the parity of the decoded
    length [dl] where the parity of the number of digits is meant: one hex
    digit before [>] is dropped instead of giving the byte [0xA0], while two
    digits give a second, spurious byte. *)
Theorem C7_single_nibble_is_dropped (verbose fix_ : bool) :
  checkASCIIHexDecode (bytes "A>") verbose fix_ = Ok ([], None)
  /\ checkASCIIHexDecode (bytes "41>") verbose fix_
     = Ok (["A"%char; "@"%char], None).
Proof. split; reflexivity. Qed.

(** C6 (code defect). The final partial group of [checkASCII85Decode] is
    only handled inside [if verbose]: without [verbose] the two characters
    of [!!~>] give no byte and the single character of [!~>] is no error,
    with [verbose] they give one byte and an error. *)
Theorem C6_partial_group_depends_on_verbose (fix_ : bool) :
  checkASCII85Decode (bytes "!!~>") false fix_ = Ok ([], None)
  /\ checkASCII85Decode (bytes "!!~>") true fix_ = Ok ([zero], None)
  /\ checkASCII85Decode (bytes "!~>") false fix_ = Ok ([], None)
  /\ checkASCII85Decode (bytes "!~>") true fix_
     = Ok ([], Some "Invalid ASCII last group in stream").
Proof. repeat split; reflexivity. Qed.

(** ** Numbers *)

(** Whatever the number, when [%g] prints it as [1.2345675e+06] the digits
    after the sixth have no room in [fRes]: the copy loop of
    [serializeNumber] runs out of the array. *)
Lemma serializeNumber_out_of_range `{GoFloat} (w : writer) (n : float64) :
  FormatG n = "1.2345675e+06" ->
  serializeNumber w n = Panic index_out_of_range.
Proof. intros Hg. unfold serializeNumber. rewrite Hg. reflexivity. Qed.





(** ** Proof tools *)

Lemma bind_Ok {A B : Type} (m : res A) (k : A -> res B) (r : B) :
  m ≫= k = Ok r -> exists a, m = Ok a /\ k a = Ok r.
Proof. destruct m; cbn; try discriminate. eauto. Qed.

Ltac inv_res H :=
  repeat first
    [ discriminate H
    | apply bind_Ok in H as (? & ? & H); cbv beta in H
    | match type of H with
      | (if ?c then _ else _) = _ => destruct c eqn:?
      | (let '(_, _) := ?p in _) = _ => destruct p
      | match ?p with (_, _) => _ end = _ => destruct p
      end ].

(** ** Cross-reference subsections *)

Section XrefSubsection.
Context `{GoFloat} `{GoSort} `{!GoSortSpec}.

Lemma linkStops_lookup (bs : list PdfObject) :
  forall i,
    linkStops bs !! i
    = (fun a => match bs !! S i with
                | Some b => setObjStop a (o_start b)
                | None => a
                end) <$> bs !! i.
Proof.
  induction bs as [|a [|b bs] IH]; intros i.
  - reflexivity.
  - destruct i; reflexivity.
  - cbn [linkStops]. destruct i as [|i].
    + reflexivity.
    + cbn [lookup list_lookup]. apply IH.
Qed.

Lemma linkStops_keys (bs : list PdfObject) :
  fmap entryKey (linkStops bs) = fmap entryKey bs.
Proof.
  induction bs as [|a [|b bs] IH]; [reflexivity..|].
  cbn [linkStops fmap list_fmap]. f_equal. apply IH.
Qed.

Lemma linkStops_starts (bs : list PdfObject) :
  fmap o_start (linkStops bs) = fmap o_start bs.
Proof.
  induction bs as [|a [|b bs] IH]; [reflexivity..|].
  cbn [linkStops fmap list_fmap]. f_equal. apply IH.
Qed.

Lemma linkStops_chained (bs : list PdfObject) : chained (linkStops bs).
Proof.
  intros i a b Ha Hb. rewrite linkStops_lookup in Ha, Hb.
  destruct (bs !! i) as [a0|] eqn:Ea; [|discriminate].
  destruct (bs !! S i) as [b0|] eqn:Eb; [|discriminate].
  cbn in Ha, Hb. injection Ha as <-.
  destruct (bs !! S (S i)); injection Hb as <-; reflexivity.
Qed.


Lemma StronglySorted_lookup {A : Type} (R : relation A) (l : list A) :
  StronglySorted R l ->
  forall i j a b, (i < j)%nat -> l !! i = Some a -> l !! j = Some b -> R a b.
Proof.
  intros Hs. induction Hs as [|x l Hs IH Hall]; intros i j a b Hij Ha Hb.
  - discriminate.
  - destruct j as [|j]; [lia|]. destruct i as [|i]; cbn in Ha, Hb.
    + injection Ha as <-. rewrite Forall_forall in Hall.
      apply Hall. eapply list_elem_of_lookup_2. eassumption.
    + eapply (IH i j); [lia|eassumption..].
Qed.

Lemma sortedByStart_lookup (bs : list PdfObject) :
  sortedByStart bs ->
  forall i j a b, (i <= j)%nat -> bs !! i = Some a -> bs !! j = Some b ->
                  o_start a <= o_start b.
Proof.
  intros Hs i j a b Hij Ha Hb.
  destruct (decide (i = j)) as [->|Hne].
  - rewrite Ha in Hb. injection Hb as <-. lia.
  - apply (StronglySorted_lookup Z.le _ Hs i j); [lia|..];
      rewrite list_lookup_fmap; [rewrite Ha|rewrite Hb]; reflexivity.
Qed.

Lemma lessStart_sorted (l : list PdfObject) :
  sortedByStart (sort_Sort lessStart l).
Proof.
  unfold sortedByStart.
  apply (StronglySorted_fmap o_start (fun a b => lessStart b a = false)).
  - intros a b Hab. unfold lessStart in Hab. apply Z.ltb_ge in Hab. exact Hab.
  - apply sort_Sort_sorted; unfold lessStart;
      [intros a; apply Z.ltb_irrefl|intros a b c Hab Hbc..].
    + apply Z.ltb_lt in Hab, Hbc. apply Z.ltb_lt. lia.
    + apply Z.ltb_ge in Hab, Hbc. apply Z.ltb_ge. lia.
Qed.

Lemma linkStops_sorted (l : list PdfObject) :
  sortedByStart l -> sortedByStart (linkStops l).
Proof. unfold sortedByStart. rewrite linkStops_starts. trivial. Qed.

(** In a sorted and chained list, an entry that starts before another one
    stops at or before the start of that one. *)
Lemma chained_sorted_stop (bs : list PdfObject) :
  sortedByStart bs -> chained bs ->
  forall a b, a ∈ bs -> b ∈ bs -> o_start a < o_start b ->
              o_stop a <= o_start b.
Proof.
  intros Hs Hc a b Ha Hb Hlt.
  apply list_elem_of_lookup in Ha as [i Hi], Hb as [j Hj].
  assert (Hij : (i < j)%nat).
  { destruct (decide (i < j)%nat) as [|Hge]; [assumption|].
    pose proof (sortedByStart_lookup bs Hs j i b a ltac:(lia) Hj Hi). lia. }
  destruct (bs !! S i) as [c|] eqn:Hc'.
  - rewrite (Hc i a c Hi Hc').
    apply (sortedByStart_lookup bs Hs (S i) j); [lia|assumption..].
  - apply lookup_ge_None in Hc'. apply lookup_lt_Some in Hj. lia.
Qed.

Lemma parseDigits_nonneg (s : string) :
  forall acc n, parseDigits s acc = Some n -> 0 <= acc -> 0 <= n.
Proof.
  induction s as [|c s IH]; intros acc n Hp Hacc; cbn in Hp.
  - injection Hp as <-. assumption.
  - unfold digitVal in Hp.
    destruct ((48 <=? b2z c) && (b2z c <=? 57)) eqn:Hd; [|discriminate].
    apply andb_true_iff in Hd as [Hlo Hhi].
    apply Z.leb_le in Hlo, Hhi. apply (IH _ _ Hp). lia.
Qed.

Lemma sidx_first (c : ascii) (tok : string) : sidx (String c tok) 0 = Ok c.
Proof.
  unfold sidx, slen. cbn [String.length].
  replace (Z.of_nat (S (String.length tok)) <=? 0) with false
    by (symmetry; apply Z.leb_gt; lia).
  reflexivity.
Qed.

Lemma ParseInt_nonneg (c : ascii) (tok : string) (bits m : Z) :
  is_byte c "-" = false ->
  ParseInt (String c tok) bits = (m, true) -> 0 <= m.
Proof.
  intros Hneg Hp. unfold ParseInt in Hp. rewrite Hneg in Hp.
  cbn [negb andb orb] in Hp.
  destruct (if is_byte c "+" || false then tok else String c tok)
    as [|c' body] eqn:Hbody; [discriminate|].
  destruct (parseDigits (String c' body) 0) as [un|] eqn:Hd; [|discriminate].
  apply parseDigits_nonneg in Hd; [|lia].
  destruct (2 ^ (bits - 1) <=? un); [discriminate|].
  injection Hp as <-. assumption.
Qed.

Lemma getPositiveInteger_nonneg (tok : string) (n : Z) (ok : bool) :
  getPositiveInteger tok = Ok (n, ok) -> 0 <= n.
Proof.
  unfold getPositiveInteger. intros Hg.
  destruct tok as [|c tok]; [discriminate|].
  rewrite sidx_first in Hg. cbn [mbind res_bind] in Hg.
  destruct (((b2z c <? 48) || (57 <? b2z c)) && negb (is_byte c "+")) eqn:Hc.
  { injection Hg as <- _. lia. }
  destruct (ParseInt (String c tok) 32) as [m [|]] eqn:Hp;
    injection Hg as <- _; [|lia].
  apply (ParseInt_nonneg c tok 32); [|assumption].
  destruct (is_byte c "-") eqn:Hm; [|reflexivity].
  apply Ascii.eqb_eq in Hm. subst c. discriminate Hc.
Qed.

Lemma xrefEntries_inv (maxObjPos start : Z) (k : nat) :
  forall fi end_ i bs bad fi' bs' bad',
    xrefEntries k fi end_ maxObjPos start i bs bad = Ok (fi', bs', bad') ->
    (bad' = -1 -> bad = -1)
    /\ exists new, bs' = bs ++ new /\ Forall (freshEntry maxObjPos bad') new.
Proof.
  induction k as [|k IH]; intros fi end_ i bs bad fi' bs' bad' Hx.
  - injection Hx as <- <- <-. split; [trivial|]. exists []. split.
    + symmetry. apply app_nil_r.
    + constructor.
  - cbn [xrefEntries] in Hx.
    inv_res Hx.
    + (* an offset beyond the table, or after one, with fix *)
      apply IH in Hx as (Hbad & new & -> & Hnew).
      assert (Hne : bad' <> -1).
      { intros ->. specialize (Hbad eq_refl).
        destruct (bad =? -1) eqn:Eb; [unfold len in Hbad; lia|].
        apply Z.eqb_neq in Eb. contradiction. }
      split; [intros; contradiction|].
      eexists (_ :: new). split; [rewrite <- app_assoc; reflexivity|].
      constructor; [|assumption]. split; [reflexivity|intros; contradiction].
    + (* a valid offset *)
      apply orb_false_elim in Heqb3 as [Hb Hz].
      apply negb_false_iff, Z.eqb_eq in Hb. apply Z.ltb_ge in Hz.
      apply IH in Hx as (Hbad & new & -> & Hnew).
      split; [intros; assumption|].
      eexists (_ :: new). split; [rewrite <- app_assoc; reflexivity|].
      constructor; [|assumption]. split; [reflexivity|]. intros _.
      cbn [o_start]. split; [|assumption].
      eapply getPositiveInteger_nonneg. eassumption.
    + (* a free entry *)
      apply IH in Hx. assumption.
Qed.

Lemma linkStops_last (bs : list PdfObject) (i : nat) (a : PdfObject) :
  linkStops bs !! i = Some a -> linkStops bs !! S i = None ->
  bs !! i = Some a.
Proof.
  rewrite !linkStops_lookup. intros Ha Hn.
  destruct (bs !! i) as [a0|] eqn:Ea; [|discriminate]. cbn in Ha.
  destruct (bs !! S i) as [b0|] eqn:Eb; [discriminate|]. assumption.
Qed.

(** C4. When every in-use offset of a subsection is within bounds (the
    first loop of [parseXrefSubsection] ends with [badOffset] still -1),
    the entries merged into the document are the in-use entries sorted by
    start offset, each one stopping where the next one starts and the last
    one, which has the largest start, keeping [stop = -1]; hence an entry
    that starts before another one stops at or before the start of that
    one. *)
Theorem C4_stops_follow_sorted_starts (pf : PdfFile) (fi fi' : fileInput)
    (maxObjPos start number : Z) (bs : list PdfObject) :
  xrefEntries (Z.to_nat number) fi (len (buffer fi) - XREF_ENTRY_SIZE)
    maxObjPos start 0 [] (-1) = Ok (fi', bs, -1) ->
  exists bs',
    parseXrefSubsection pf fi maxObjPos start number
    = Ok (mergeBoundaries pf bs', fi')
    /\ Forall (fun b => 0 <= o_start b <= maxObjPos) bs
    /\ entryKey <$> bs' ≡ₚ entryKey <$> bs
    /\ sortedByStart bs'
    /\ chained bs'
    /\ (forall i a, bs' !! i = Some a -> bs' !! S i = None ->
          o_stop a = -1 /\ forall b, b ∈ bs' -> o_start b <= o_start a)
    /\ (forall a b, a ∈ bs' -> b ∈ bs' -> o_start a < o_start b ->
          o_stop a <= o_start b).
Proof.
  intros Hx. exists (linkStops (sort_Sort lessStart bs)).
  pose proof (xrefEntries_inv _ _ _ _ _ _ _ _ _ _ _ Hx) as (_ & new & Hnew & Hfresh).
  cbn [app] in Hnew. subst new.
  assert (Hsorted : sortedByStart (linkStops (sort_Sort lessStart bs)))
    by apply linkStops_sorted, lessStart_sorted.
  assert (Hchained : chained (linkStops (sort_Sort lessStart bs)))
    by apply linkStops_chained.
  split; [|split; [|split; [|split; [|split; [|split]]]]].
  - unfold parseXrefSubsection. rewrite Hx. reflexivity.
  - eapply Forall_impl; [exact Hfresh|]. intros b [_ Hb]. apply Hb. reflexivity.
  - rewrite linkStops_keys. apply fmap_Permutation, sort_Sort_perm.
  - exact Hsorted.
  - exact Hchained.
  - intros i a Ha Hn. split.
    + apply (linkStops_last _ _ _ Ha) in Hn.
      apply list_elem_of_lookup_2 in Hn.
      rewrite (sort_Sort_perm _ lessStart bs) in Hn.
      rewrite Forall_forall in Hfresh. apply Hfresh. assumption.
    + intros b Hb. apply list_elem_of_lookup in Hb as [j Hj].
      apply (sortedByStart_lookup _ Hsorted j i); [|assumption..].
      apply lookup_ge_None in Hn. apply lookup_lt_Some in Hj. lia.
  - apply chained_sorted_stop; assumption.
Qed.
End XrefSubsection.

(** ** The consolidated cross-reference table *)

Section SerializeXREF.
Context `{GoFloat}.

Lemma serializeXREFEntries_gap (pdf : PdfFile) (k : nat) :
  forall (w : writer) (first id : Z),
    first <= id < first + Z.of_nat k ->
    ObjById pdf !! id = None ->
    serializeXREFEntries pdf w k first = Panic nil_dereference.
Proof.
  induction k as [|k IH]; intros w first id Hid Hnone; [lia|].
  cbn [serializeXREFEntries].
  destruct (decide (first = id)) as [->|Hne].
  - rewrite Hnone. reflexivity.
  - destruct (ObjById pdf !! first) as [l|]; [|reflexivity].
    unfold deref. destruct (heap pdf !! l) as [o|]; [|reflexivity].
    cbn. apply (IH _ _ id); [lia|assumption].
Qed.

(** C10. When some id between 1 and [len(Objects)] is absent from
    [ObjById], the loop of [serializeXREF] reads the fields of a nil
    pointer: the call panics, so [Serialize] never completes on such a
    document. *)
Theorem C10_gap_in_ids_faults (pdf : PdfFile) (id : Z) :
  1 <= id <= len (Objects pdf) ->
  ObjById pdf !! id = None ->
  (forall w, serializeXREF pdf w = Panic nil_dereference)
  /\ (forall fuel level r, Serialize fuel pdf level <> Ok r).
Proof.
  intros Hid Hnone.
  assert (Hx : forall (p : PdfFile) w, ObjById p = ObjById pdf ->
                 Objects p = Objects pdf ->
                 serializeXREF p w = Panic nil_dereference).
  { intros p w Hby Hobjs. unfold serializeXREF.
    rewrite (serializeXREFEntries_gap p _ _ 1 id); [reflexivity| |].
    - rewrite Hobjs. unfold len in *. lia.
    - rewrite Hby. assumption. }
  split; [intros w; apply Hx; reflexivity|].
  intros fuel level r. unfold Serialize, serializeObjects.
  destruct (serializeObjectList fuel (heap pdf) _ (Objects pdf))
    as [[h w]| | |]; cbn; try discriminate.
  rewrite Hx; [discriminate| |]; reflexivity.
Qed.

End SerializeXREF.

(** ** The file header *)

#[local] Arguments Ascii.eqb : simpl never.
#[local] Arguments is_byte : simpl never.

Section Header.
Context `{GoFloat} `{GoSort}.

Lemma len_take_512 (content : list ascii) :
  len (take 512 content) = Z.min 512 (len content).
Proof. unfold len. rewrite length_take. lia. Qed.

Lemma at_take_512 (content : list ascii) (i : Z) :
  0 <= i < 512 -> at_ (take 512 content) i = at_ content i.
Proof.
  intros Hi. unfold at_. rewrite lookup_take_lt; [reflexivity|lia].
Qed.

Lemma fillBuffer_first (content : list ascii) (verbose fix_ : bool) :
  exists fi, fillBuffer (newFileInput content verbose fix_) 512 0 = Ok fi
    /\ buffer fi = take 512 content /\ offset fi = 0.
Proof.
  eexists. split; [reflexivity|]. split; reflexivity.
Qed.


Lemma is_byte_eq (c : ascii) (d : ascii) : is_byte c (String d "") = true <-> c = d.
Proof. unfold is_byte. apply Ascii.eqb_eq. Qed.

Lemma hasPrefix_pdf (content : list ascii) :
  9 <= len content ->
  hasPrefix content (bytes "%PDF-1.") = headerChecks content.
Proof.
  intros Hlen.
  do 9 (destruct content as [|? content];
        [unfold len in Hlen; simpl in Hlen; lia|]).
  unfold headerChecks, at_. simpl.
  unfold is_byte. rewrite !(Ascii.eqb_sym "%"), !(Ascii.eqb_sym "P"),
    !(Ascii.eqb_sym "D"), !(Ascii.eqb_sym "F"), !(Ascii.eqb_sym "-"),
    !(Ascii.eqb_sym "1"), !(Ascii.eqb_sym ".").
  rewrite andb_true_r, !andb_assoc. reflexivity.
Qed.

Lemma readFirstLine_rejects (content : list ascii) (verbose fix_ : bool) :
  headerAccepted content = false ->
  readFirstLine (newFileInput content verbose fix_) = Err "Not a PDF document"
  \/ readFirstLine (newFileInput content verbose fix_) = Err "Invalid file header".
Proof.
  intros Hbad. unfold readFirstLine.
  destruct (fillBuffer_first content verbose fix_) as (fi & -> & Hbuf & Hoff).
  cbn zeta. rewrite Hbuf.
  rewrite !at_take_512 by lia. rewrite len_take_512.
  destruct (Z.min 512 (len content) <? 9) eqn:Hshort; [left; reflexivity|].
  apply Z.ltb_ge in Hshort.
  assert (Hlen : 9 <= len content) by lia.
  unfold headerAccepted in Hbad.
  rewrite (hasPrefix_pdf _ Hlen) in Hbad.
  replace (9 <=? len content) with true in Hbad
    by (symmetry; apply Z.leb_le; assumption).
  cbn [orb andb] in *.
  rewrite <- !negb_andb. fold (headerChecks content).
  destruct (headerChecks content); cbn [negb andb] in *; [|left; reflexivity].
  right. unfold isEOL in Hbad. apply orb_false_elim in Hbad as [-> ->].
  reflexivity.
Qed.

Lemma readFirstLine_accepts (content : list ascii) (verbose fix_ : bool) :
  headerAccepted content = true ->
  16 <= len content ->
  exists fi,
    readFirstLine (newFileInput content verbose fix_)
    = Ok (fi, string_of_list_ascii (take 8 content)).
Proof.
  intros Hok Hlen. unfold readFirstLine.
  destruct (fillBuffer_first content verbose fix_) as (fi & -> & Hbuf & Hoff).
  cbn zeta. rewrite Hbuf.
  rewrite !at_take_512 by lia. rewrite len_take_512.
  unfold headerAccepted in Hok.
  apply andb_true_iff in Hok as [Hok Heol].
  apply andb_true_iff in Hok as [_ Hpre].
  rewrite hasPrefix_pdf in Hpre by lia.
  replace (Z.min 512 (len content) <? 9) with false
    by (symmetry; apply Z.ltb_ge; lia).
  cbn [orb]. rewrite <- !negb_andb. fold (headerChecks content).
  rewrite Hpre. cbn [negb].
  replace (take 8 (take 512 content)) with (take 8 content)
    by (rewrite take_take; reflexivity).
  assert (Hend : forall i, i <= 10 -> (Z.min 512 (len content) - 5 <=? i) = false)
    by (intros; apply Z.leb_gt; lia).
  unfold isEOL in Heol.
  destruct (b2z (at_ content 8) =? 13) eqn:Hcr.
  - replace (Z.min 512 (len content) =? 9) with false
      by (symmetry; apply Z.eqb_neq; lia).
    destruct (b2z (at_ content 9) =? 10); cbn; rewrite ?Hoff;
      (rewrite Hend by lia); eexists; reflexivity.
  - cbn [orb] in Heol. rewrite Heol. cbn. rewrite ?Hoff.
    rewrite Hend by lia. eexists; reflexivity.
Qed.
Lemma parseHeader_accepts (content : list ascii) (verbose fix_ : bool) :
  headerAccepted content = true ->
  16 <= len content ->
  exists pf fi,
    parseHeader newPdfFile (newFileInput content verbose fix_) = Ok (pf, fi)
    /\ Header pf = string_of_list_ascii (take 8 content)
    /\ Version pf = "1." +:+ fmt_d ((b2z (at_ content 7) - 0x30) mod 256).
Proof.
  intros Hok Hlen. unfold parseHeader.
  destruct (readFirstLine_accepts content verbose fix_ Hok Hlen) as (fi & ->).
  cbn [mbind res_bind]. 
  do 8 (destruct content as [|? content];
        [unfold len in Hlen; simpl in Hlen; lia|]).
  eexists _, _. split; [reflexivity|]. split; reflexivity.
Qed.

(** C8 (amended). [Parse] fails with the bad-header error, and returns no
    document, for every file that has fewer than nine bytes, does not
    begin with the seven bytes [%PDF-1.], or whose ninth byte is neither CR
    nor LF. The eighth byte, the minor version, is not examined. *)
Theorem C8_bad_header_is_fatal (fuel : nat) (content : list ascii)
    (verbose fix_ : bool) :
  headerAccepted content = false ->
  Parse fuel content verbose fix_
  = Err "PDF Parser: incorrect file header: Not a PDF document"
  \/ Parse fuel content verbose fix_
     = Err "PDF Parser: incorrect file header: Invalid file header".
Proof.
  intros Hbad. unfold Parse, parse, parseHeader.
  destruct (readFirstLine_rejects content verbose fix_ Hbad) as [-> | ->];
    [left|right]; reflexivity.
Qed.

End Header.

(** ** The insertion sort satisfies the contract of [sort.Sort] *)

Section InsertionSort.
Context {A : Type} (less : A -> A -> bool).

Lemma insert_perm (x : A) (l : list A) : Dec.insert less x l ≡ₚ x :: l.
Proof.
  induction l as [|y l IH]; cbn [Dec.insert]; [reflexivity|].
  destruct (less x y); [reflexivity|].
  rewrite IH. apply Permutation_swap.
Qed.

Lemma insertionSort_perm (l : list A) : Dec.insertionSort less l ≡ₚ l.
Proof.
  induction l as [|x l IH]; cbn [Dec.insertionSort]; [reflexivity|].
  rewrite insert_perm, IH. reflexivity.
Qed.

Hypothesis less_irrefl : forall a, less a a = false.
Hypothesis less_trans :
  forall a b c, less a b = true -> less b c = true -> less a c = true.
Hypothesis notless_trans :
  forall a b c, less a b = false -> less b c = false -> less a c = false.

Lemma less_asym (a b : A) : less a b = true -> less b a = false.
Proof.
  intros Hab. destruct (less b a) eqn:Hba; [|reflexivity].
  rewrite <- (less_irrefl a). symmetry. eapply less_trans; eassumption.
Qed.

Lemma insert_sorted (x : A) (l : list A) :
  StronglySorted (fun a b => less b a = false) l ->
  StronglySorted (fun a b => less b a = false) (Dec.insert less x l).
Proof.
  induction 1 as [|y l Hl IH Hall]; cbn [Dec.insert].
  - repeat constructor.
  - destruct (less x y) eqn:Hxy.
    + constructor; [constructor; assumption|].
      constructor; [apply less_asym; assumption|].
      eapply Forall_impl; [exact Hall|]. intros z Hz. cbn in Hz.
      eapply notless_trans; [exact Hz|]. apply less_asym. assumption.
    + constructor; [assumption|].
      rewrite insert_perm. constructor; assumption.
Qed.

Lemma insertionSort_sorted (l : list A) :
  StronglySorted (fun a b => less b a = false) (Dec.insertionSort less l).
Proof.
  induction l as [|x l IH]; cbn [Dec.insertionSort]; [constructor|].
  apply insert_sorted. assumption.
Qed.

End InsertionSort.

Lemma insertionSort_spec : @GoSortSpec Dec.sorter.
Proof.
  split.
  - intros A less l. apply insertionSort_perm.
  - intros A less Hirr Htr Hntr l. apply insertionSort_sorted; assumption.
Qed.

(** ** Dictionaries *)

Lemma sapp_cons (x : ascii) (a b : string) :
  String x a +:+ b = String x (a +:+ b).
Proof. reflexivity. Qed.

Lemma sapp_assoc (a b c : string) : (a +:+ b) +:+ c = a +:+ (b +:+ c).
Proof.
  induction a as [|x a IH]; [reflexivity|].
  rewrite !sapp_cons, IH. reflexivity.
Qed.

Lemma sapp_nil_r (a : string) : a +:+ "" = a.
Proof.
  induction a as [|x a IH]; [reflexivity|].
  rewrite sapp_cons, IH. reflexivity.
Qed.

Lemma firstOccurrences_NoDup (ks : list string) :
  forall seen, NoDup ks -> (forall k, k ∈ ks -> k ∉ seen) ->
               firstOccurrences seen ks = ks.
Proof.
  induction ks as [|k ks IH]; intros seen Hnd Hdis; [reflexivity|].
  cbn [firstOccurrences]. apply NoDup_cons in Hnd as [Hk Hnd].
  destruct (decide (k ∈ seen)) as [Hin|_].
  - exfalso. apply (Hdis k); [left|assumption].
  - f_equal. apply IH; [assumption|].
    intros k' Hk' Hin. apply elem_of_cons in Hin as [->|Hin]; [contradiction|].
    apply (Hdis k'); [right; assumption|assumption].
Qed.

Section Dictionaries.
Context `{GoFloat}.

Lemma bindAll_snoc (m : gmap string value) (entries : list (string * value))
    (e : string * value) :
  bindAll m (entries ++ [e]) = <[e.1 := e.2]> (bindAll m entries).
Proof. unfold bindAll. rewrite foldl_app. reflexivity. Qed.

Lemma bindAll_list_to_map (entries : list (string * value)) :
  bindAll ∅ entries = list_to_map (reverse entries).
Proof.
  induction entries as [|e entries IH] using rev_ind; [reflexivity|].
  rewrite bindAll_snoc, reverse_snoc, IH. destruct e. reflexivity.
Qed.

Lemma bindAll_keys (entries : list (string * value)) (m : gmap string value) :
  forall k, k ∈ entries.*1 -> is_Some (bindAll m entries !! k).
Proof.
  induction entries as [|e entries IH] using rev_ind; intros k Hk.
  - apply elem_of_nil in Hk. contradiction.
  - rewrite bindAll_snoc. rewrite fmap_app in Hk.
    destruct (decide (e.1 = k)) as [<-|Hne].
    + rewrite lookup_insert_eq. eauto.
    + rewrite lookup_insert_ne by assumption. apply IH.
      apply elem_of_app in Hk as [Hk|Hk]; [assumption|].
      apply list_elem_of_singleton in Hk. congruence.
Qed.

Lemma bindAll_lookup (entries : list (string * value)) (m : gmap string value)
    (k : string) (v : value) :
  bindAll m entries !! k = Some v -> m !! k = Some v \/ (k, v) ∈ entries.
Proof.
  induction entries as [|e entries IH] using rev_ind; intros Hk; [left; exact Hk|].
  rewrite bindAll_snoc in Hk.
  destruct (decide (e.1 = k)) as [<-|Hne].
  - rewrite lookup_insert_eq in Hk. injection Hk as <-.
    right. apply elem_of_app. right. destruct e. apply list_elem_of_singleton.
    reflexivity.
  - rewrite lookup_insert_ne in Hk by assumption.
    destruct (IH Hk) as [Hm|Hin]; [left; exact Hm|].
    right. apply elem_of_app. left. exact Hin.
Qed.

(** The loop of [getDictionaryOrStream] stores the entries it reads in
    their order. *)
Lemma getDictionaryLoop_reads (god : fileInput -> Z -> res (fileInput * value))
    (tokFuel : nat) (stop : Z) (fi fiEnd fi' : fileInput)
    (entries : list (string * value)) :
  readsEntries god tokFuel stop fi entries fiEnd ->
  nextToken tokFuel fiEnd = Ok fi' ->
  token fi' <> "stream" ->
  forall (fuel : nat) (k : list string) (m : gmap string value),
    (length entries < fuel)%nat ->
    getDictionaryLoop god fuel tokFuel fi stop k m
    = Ok (fi', pdfDictionaryV (mkDictionary (k ++ entries.*1) (bindAll m entries))).
Proof.
  intros Hreads Hnext Hns.
  induction Hreads as [fi Htok|fi fi1 fi2 fiEnd name v rest Htok Hslash Hname Hgod _ IH];
    intros fuel k m Hfuel.
  - destruct fuel as [|fuel]; [cbn in Hfuel; lia|].
    cbn [getDictionaryLoop].
    rewrite (proj2 (String.eqb_eq _ _) Htok).
    rewrite Hnext. cbn [mbind res_bind].
    rewrite (proj2 (String.eqb_neq _ _) Hns).
    rewrite app_nil_r. reflexivity.
  - destruct fuel as [|fuel]; [cbn in Hfuel; lia|].
    cbn [getDictionaryLoop].
    rewrite (proj2 (String.eqb_neq _ _) Htok).
    rewrite Hslash. cbn [mbind res_bind].
    replace (is_byte "/" "/") with true by reflexivity. cbn [negb].
    rewrite Hname. cbn [wrapErr mbind res_bind].
    rewrite Hgod. cbn [wrapErr mbind res_bind].
    rewrite (IH Hnext fuel); [|cbn in Hfuel; lia].
    cbn [fmap list_fmap fst]. rewrite <- app_assoc. reflexivity.
Qed.

(** *** Serialization only appends to the file *)

Lemma extends_refl (w : writer) : extends w w.
Proof. exists "". symmetry. apply sapp_nil_r. Qed.

Lemma extends_trans (w1 w2 w3 : writer) :
  extends w1 w2 -> extends w2 w3 -> extends w1 w3.
Proof.
  intros [t1 H1] [t2 H2]. exists (t1 +:+ t2).
  rewrite H2, H1. apply sapp_assoc.
Qed.

Lemma extends_write (w : writer) (s : string) : extends w (write w s).
Proof. exists s. reflexivity. Qed.

Lemma extends_level (w : writer) (l : Z) :
  extends w {| out := out w; arrayLevel := l |}.
Proof. exists "". symmetry. apply sapp_nil_r. Qed.

Lemma serializeNumber_extends (w w' : writer) (n : float64) :
  serializeNumber w n = Ok w' -> extends w w'.
Proof.
  unfold serializeNumber. intros Hs.
  inv_res Hs; injection Hs as <-; apply extends_write.
Qed.

Section Appending.
Variable sv : writer -> value -> res writer.
Hypothesis sv_extends : forall w v w', sv w v = Ok w' -> extends w w'.

Lemma serializeEntries_out (d : gmap string value) (ks : list string) :
  forall w w',
    serializeEntries sv w ks d = Ok w' ->
    exists ts,
      Forall2 (fun k t => exists v, d !! k = Some v /\ emits sv v t) ks ts
      /\ out w' = out w +:+ entriesText ks ts.
Proof.
  induction ks as [|k ks IH]; intros w w' Hs; cbn [serializeEntries] in Hs.
  - injection Hs as <-. exists []. split; [constructor|].
    symmetry. apply sapp_nil_r.
  - destruct (d !! k) as [v|] eqn:Hk; [|discriminate].
    apply bind_Ok in Hs as (w1 & Hv & Hs). cbv beta in Hs.
    destruct (sv_extends _ _ _ Hv) as [t Ht].
    apply IH in Hs as (ts & Hall & Hout).
    exists (t :: ts). split.
    + constructor; [|assumption]. exists v. split; [exact Hk|].
      eexists _, _. split; eassumption.
    + rewrite Hout. cbn [write out entriesText]. rewrite Ht.
      cbn [write out]. unfold LF. rewrite !sapp_assoc. reflexivity.
Qed.

Lemma serializeEntries_total (d : gmap string value) (ks : list string) :
  (forall k, k ∈ ks ->
     exists v, d !! k = Some v /\ forall w, exists w', sv w v = Ok w') ->
  forall w, exists w', serializeEntries sv w ks d = Ok w'.
Proof.
  induction ks as [|k ks IH]; intros Hks w; cbn [serializeEntries].
  - eexists. reflexivity.
  - destruct (Hks k) as (v & -> & Hv); [left|].
    destruct (Hv (write w ("/" +:+ k +:+ " "))) as [w1 ->].
    cbn [mbind res_bind]. apply IH.
    intros k' Hk'. apply Hks. right. exact Hk'.
Qed.

Lemma serializeDictionaryWith_out (d : gmap string value) (ks : list string)
    (w w' : writer) :
  serializeDictionaryWith sv w ks d = Ok w' ->
  exists ts,
    Forall2 (fun k t => exists v, d !! k = Some v /\ emits sv v t) ks ts
    /\ out w' = out w +:+ "<<" +:+ LF +:+ entriesText ks ts +:+ ">>".
Proof.
  unfold serializeDictionaryWith. intros Hs.
  apply bind_Ok in Hs as (w1 & He & Hs). injection Hs as <-.
  apply serializeEntries_out in He as (ts & Hall & Hout).
  exists ts. split; [assumption|]. cbn [write out]. rewrite Hout.
  cbn [write out]. unfold LF. rewrite !sapp_assoc. reflexivity.
Qed.

Lemma serializeDictionaryWith_extends (d : gmap string value)
    (ks : list string) (w w' : writer) :
  serializeDictionaryWith sv w ks d = Ok w' -> extends w w'.
Proof.
  intros Hs. apply serializeDictionaryWith_out in Hs as (ts & _ & Hout).
  eexists. exact Hout.
Qed.

Lemma serializeItems_extends (items : list value) :
  forall w i prev w',
    serializeItems sv w i prev items = Ok w' -> extends w w'.
Proof.
  induction items as [|d items IH]; intros w i prev w' Hs;
    cbn [serializeItems] in Hs.
  - injection Hs as <-. apply extends_refl.
  - apply bind_Ok in Hs as (w1 & Hv & Hs). cbv beta in Hs.
    apply sv_extends in Hv. apply IH in Hs.
    eapply extends_trans; [|eassumption].
    eapply extends_trans; [|eassumption].
    destruct (0 <? i); [apply extends_write|apply extends_refl].
Qed.

Lemma serializeArrayWith_extends (items : list value) (w w' : writer) :
  serializeArrayWith sv w items = Ok w' -> extends w w'.
Proof.
  unfold serializeArrayWith. intros Hs.
  apply bind_Ok in Hs as (w1 & Hi & Hs). cbv beta in Hs.
  apply serializeItems_extends in Hi.
  assert (Hw : extends w w1).
  { eapply extends_trans; [|exact Hi].
    eapply extends_trans; [apply extends_write|apply extends_level]. }
  destruct (_ =? 0); injection Hs as <-;
    (eapply extends_trans; [exact Hw|]);
    (eapply extends_trans; [apply extends_level|apply extends_write]).
Qed.

End Appending.

Lemma serializeValue_extends (fuel : nat) :
  forall w v w', serializeValue fuel w v = Ok w' -> extends w w'.
Proof.
  induction fuel as [|fuel IH]; intros w v w' Hs; [discriminate|].
  cbn [serializeValue] in Hs.
  destruct v as [|b|n|s|s|s|d|extent sdata|items| |r].
  - injection Hs as <-. apply extends_refl.
  - injection Hs as <-. apply extends_write.
  - eapply serializeNumber_extends. eassumption.
  - injection Hs as <-.
    eapply extends_trans; [|apply extends_write].
    eapply extends_trans; apply extends_write.
  - injection Hs as <-. apply extends_write.
  - injection Hs as <-. eapply extends_trans; apply extends_write.
  - eapply serializeDictionaryWith_extends; eassumption.
  - apply bind_Ok in Hs as (w1 & Hd & Hs). injection Hs as <-.
    apply (serializeDictionaryWith_extends _ IH) in Hd.
    eapply extends_trans; [exact Hd|].
    eapply extends_trans; [|apply extends_write].
    eapply extends_trans; apply extends_write.
  - eapply serializeArrayWith_extends; eassumption.
  - injection Hs as <-. apply extends_write.
  - injection Hs as <-. apply extends_write.
Qed.

(** C3, amended. A dictionary body that holds the names and values
    [entries] one after the other, then [>>] and a token that is not
    [stream], is parsed (the parser returns a dictionary, it does not fail)
    with the ordered key list equal to the names in their order in the file,
    one key per occurrence, and each key bound to the value of its last
    occurrence. When the names are distinct this list is the order of first
    appearance. When each value can be written, serializing the dictionary
    returns, and its output is [<<], then one line [/key value] per element
    of the key list in the order of the list, then [>>]. *)
Theorem C3_keys_follow_the_source (fuel sfuel : nat) (stop : Z)
    (fi0 fi fiEnd fi' : fileInput) (entries : list (string * value)) :
  nextToken fuel fi0 = Ok fi ->
  readsEntries (getObjectDef fuel) fuel stop fi entries fiEnd ->
  nextToken fuel fiEnd = Ok fi' ->
  token fi' <> "stream" ->
  (length entries < fuel)%nat ->
  Forall (fun e => forall w, exists w', serializeValue sfuel w e.2 = Ok w')
    entries ->
  exists d,
    getDictionaryOrStream fuel fi0 stop = Ok (fi', pdfDictionaryV d)
    /\ keys d = entries.*1
    /\ data d = list_to_map (reverse entries)
    /\ (NoDup entries.*1 -> keys d = firstOccurrences [] entries.*1)
    /\ forall w, exists w' ts,
         serializeDictionary sfuel w (keys d) (data d) = Ok w'
         /\ Forall2 (fun k t => exists v, data d !! k = Some v
                                 /\ emits (serializeValue sfuel) v t)
              (keys d) ts
         /\ out w' = out w +:+ "<<" +:+ LF +:+ entriesText (keys d) ts +:+ ">>".
Proof.
  intros Hfirst Hreads Hnext Hns Hfuel Hvals.
  exists (mkDictionary entries.*1 (bindAll ∅ entries)).
  split; [|split; [|split; [|split]]].
  - unfold getDictionaryOrStream, getDictionaryOrStreamWith.
    rewrite Hfirst. cbn [mbind res_bind].
    apply (getDictionaryLoop_reads _ _ _ _ _ _ _ Hreads Hnext Hns fuel [] ∅ Hfuel).
  - reflexivity.
  - apply bindAll_list_to_map.
  - intros Hnd. cbn [keys]. symmetry. apply firstOccurrences_NoDup; [exact Hnd|].
    intros k _ Hin. apply elem_of_nil in Hin. exact Hin.
  - intros w. cbn [keys data]. unfold serializeDictionary.
    assert (Hret : exists w',
               serializeDictionaryWith (serializeValue sfuel) w entries.*1
                 (bindAll ∅ entries) = Ok w').
    { unfold serializeDictionaryWith.
      destruct (serializeEntries_total (serializeValue sfuel)
                  (bindAll ∅ entries) entries.*1) with
        (w := write w ("<<" +:+ String "010"%char "")) as [w1 Hw1].
      - intros k Hk. destruct (bindAll_keys entries ∅ k Hk) as [v Hv].
        exists v. split; [exact Hv|].
        apply bindAll_lookup in Hv as [Hv|Hv]; [rewrite lookup_empty in Hv; discriminate|].
        rewrite Forall_forall in Hvals. apply (Hvals _ Hv).
      - rewrite Hw1. eexists. reflexivity. }
    destruct Hret as [w' Hw']. exists w'.
    destruct (serializeDictionaryWith_out _ (serializeValue_extends sfuel)
                _ _ _ _ Hw') as (ts & Hall & Hout).
    exists ts. split; [exact Hw'|]. split; assumption.
Qed.

End Dictionaries.

(** ** Runs on concrete inputs

    The library interfaces are instantiated with the decimal numbers and
    the insertion sort of [Dec]. *)

Section ConcreteRuns.
#[local] Existing Instance Dec.float.
#[local] Existing Instance Dec.sorter.
#[local] Existing Instance insertionSort_spec.

(** C9 (code defect). The number 1234567.5, which [%g] prints as
    [1.2345675e+06], is not rendered: [serializeNumber] stops with an index
    out of range. (The explicit [panic("Unexpected %g case")] is not the
    branch taken.) *)
Theorem C9_fraction_above_1e6_is_not_rendered (w : writer) :
  exists x : float64,
    ParseFloat "1234567.5" = Some x
    /\ FormatG x = "1.2345675e+06"
    /\ serializeNumber w x = Panic index_out_of_range.
Proof.
  eexists. split; [reflexivity|]. split; [reflexivity|].
  apply serializeNumber_out_of_range. reflexivity.
Qed.

(** C5 (code defect). With [fix] set, the in-use entry just before the
    first bad offset keeps its offset: the loop that invalidates the
    previous entries stops at [badOffset - 1]. Without [fix] the subsection
    is an error. *)
Theorem C5_entry_before_bad_offset_keeps_start :
  subsectionEntries badSubsection true 500 1 3 [1; 2; 3]
  = Ok [Some (0, 100, -1); Some (0, -1, -1); Some (0, -1, -1)]
  /\ subsectionEntries badSubsection false 500 1 3 [1; 2; 3]
     = Err "Incorrect XREF object offset (beyond object boundary)".
Proof. split; vm_compute; reflexivity. Qed.

(** C1 (code defect). [parseXrefTable] starts every block with a new
    [ObjById]: after [Parse] of a file with one update, the entry of object 4
    is the one of the oldest table (generation 0, offset 575, the value of
    the base body), not the one of the update (generation 1, offset 761). *)
Theorem C1_update_entry_is_lost :
  (pf ← Parse 1000 updatedPdf false false;
   text ← entryText pf 4; Ok (entry pf 4, text))
  = Ok (Some (0, 575, 591), "(first)").
Proof. vm_compute. reflexivity. Qed.

(** The document [gapPdf] has one object and no id 1. *)
Lemma C10_gap_in_ids_faults_witness :
  (1 <= 1 <= len (Objects gapPdf) /\ ObjById gapPdf !! 1 = None)
  /\ (forall w, serializeXREF gapPdf w = Panic nil_dereference)
  /\ (forall fuel level r, Serialize fuel gapPdf level <> Ok r).
Proof.
  assert (Hid : 1 <= 1 <= len (Objects gapPdf)) by (vm_compute; split; discriminate).
  assert (Hnone : ObjById gapPdf !! 1 = None) by reflexivity.
  split; [split; assumption|].
  exact (C10_gap_in_ids_faults gapPdf 1 Hid Hnone).
Defined.

(** C8 (counterexample). A file that begins with [%PDF-1.9] is parsed, and
    its version is recorded as 1.9. *)
Lemma C8_minor_version_9_is_accepted :
  (pf ← Parse 1000 pdf19 false false; Ok (Header pf, Version pf))
  = Ok ("%PDF-1.9", "1.9").
Proof. vm_compute. reflexivity. Qed.

(** A file that begins with [%PDF-2.0] is rejected. *)
Lemma C8_bad_header_is_fatal_witness :
  headerAccepted (bytes "%PDF-2.0 and more") = false
  /\ (Parse 10 (bytes "%PDF-2.0 and more") false false
      = Err "PDF Parser: incorrect file header: Not a PDF document"
      \/ Parse 10 (bytes "%PDF-2.0 and more") false false
         = Err "PDF Parser: incorrect file header: Invalid file header").
Proof.
  split; [reflexivity|].
  apply (C8_bad_header_is_fatal 10 (bytes "%PDF-2.0 and more") false false).
  reflexivity.
Defined.

(** The subsection [goodSubsection]: ids 1, 2 and 4 at offsets 300, 100
    and 200. *)
Lemma C4_stops_follow_sorted_starts_witness :
  xrefEntries (Z.to_nat 4) (filled goodSubsection false)
    (len (buffer (filled goodSubsection false)) - XREF_ENTRY_SIZE) 500 1 0 [] (-1)
  = Ok (set_offset (filled goodSubsection false) 80,
        [xrefObject 1 0 300; xrefObject 2 0 100; xrefObject 4 0 200], -1)
  /\ exists bs',
    parseXrefSubsection newPdfFile (filled goodSubsection false) 500 1 4
    = Ok (mergeBoundaries newPdfFile bs', set_offset (filled goodSubsection false) 80)
    /\ Forall (fun b => 0 <= o_start b <= 500)
         [xrefObject 1 0 300; xrefObject 2 0 100; xrefObject 4 0 200]
    /\ entryKey <$> bs'
       ≡ₚ entryKey <$> [xrefObject 1 0 300; xrefObject 2 0 100; xrefObject 4 0 200]
    /\ sortedByStart bs'
    /\ chained bs'
    /\ (forall i a, bs' !! i = Some a -> bs' !! S i = None ->
          o_stop a = -1 /\ forall b, b ∈ bs' -> o_start b <= o_start a)
    /\ (forall a b, a ∈ bs' -> b ∈ bs' -> o_start a < o_start b ->
          o_stop a <= o_start b).
Proof.
  assert (Hx : xrefEntries (Z.to_nat 4) (filled goodSubsection false)
                 (len (buffer (filled goodSubsection false)) - XREF_ENTRY_SIZE)
                 500 1 0 [] (-1)
               = Ok (set_offset (filled goodSubsection false) 80,
                     [xrefObject 1 0 300; xrefObject 2 0 100;
                      xrefObject 4 0 200], -1)).
  { vm_cast_no_check
      (eq_refl (Ok (set_offset (filled goodSubsection false) 80,
                    [xrefObject 1 0 300; xrefObject 2 0 100;
                     xrefObject 4 0 200], -1))). }
  split; [exact Hx|].
  exact (C4_stops_follow_sorted_starts newPdfFile (filled goodSubsection false) _
           500 1 4 _ Hx).
Defined.

(** C3 (counterexample). In [<< /A 1 /B 2 /A 3 >>] the key [A] appears
    twice: the ordered key list is [A; B; A], not the keys in their order of
    first appearance [A; B], and the dictionary is written with two entries
    for [A], both with the value of the last one. *)
Lemma C3_repeated_key_is_recorded_twice :
  parsedKeys 100 repeatedKey = Ok ["A"; "B"; "A"]
  /\ firstOccurrences [] ["A"; "B"; "A"] = ["A"; "B"]
  /\ roundTrip 100 repeatedKey
     = Ok ("<<" +:+ LF +:+ "/A 3" +:+ LF +:+ "/B 2" +:+ LF +:+ "/A 3" +:+ LF
           +:+ ">>").
Proof. repeat split; vm_compute; reflexivity. Qed.

(** The dictionary [<< /A 1 /B 2 >>]. *)
Lemma C3_keys_follow_the_source_witness :
  exists d,
    getDictionaryOrStream 100 (dictState 2 "<<" 0) (-1)
    = Ok (dictState 22 "endobj" 16, pdfDictionaryV d)
    /\ keys d = ["A"; "B"]
    /\ data d = list_to_map (reverse [("A", pdfNumber (float_of_int 1));
                                      ("B", pdfNumber (float_of_int 2))])
    /\ (NoDup ["A"; "B"] -> keys d = firstOccurrences [] ["A"; "B"])
    /\ forall w, exists w' ts,
         serializeDictionary 10 w (keys d) (data d) = Ok w'
         /\ Forall2 (fun k t => exists v, data d !! k = Some v
                                 /\ emits (serializeValue 10) v t)
              (keys d) ts
         /\ out w' = out w +:+ "<<" +:+ LF +:+ entriesText (keys d) ts +:+ ">>".
Proof.
  apply (C3_keys_follow_the_source 100 10 (-1) (dictState 2 "<<" 0)
           (dictState 5 "/A" 3) (dictState 15 ">>" 13)
           (dictState 22 "endobj" 16)
           [("A", pdfNumber (float_of_int 1)); ("B", pdfNumber (float_of_int 2))]).
  - vm_compute. reflexivity.
  - apply (reads_entry _ _ _ _ (dictState 7 "1" 6) (dictState 10 "/B" 8)).
    { vm_compute. discriminate. }
    { vm_compute. reflexivity. }
    { vm_compute. reflexivity. }
    { vm_cast_no_check
        (eq_refl (Ok (dictState 10 "/B" 8, pdfNumber (float_of_int 1)))). }
    apply (reads_entry _ _ _ _ (dictState 12 "2" 11) (dictState 15 ">>" 13)).
    { vm_compute. discriminate. }
    { vm_compute. reflexivity. }
    { vm_compute. reflexivity. }
    { vm_cast_no_check
        (eq_refl (Ok (dictState 15 ">>" 13, pdfNumber (float_of_int 2)))). }
    apply reads_end. reflexivity.
  - vm_compute. reflexivity.
  - vm_compute. discriminate.
  - cbn. lia.
  - repeat constructor.
    + intros w. exists (write w "1").
      vm_cast_no_check (eq_refl (Ok (write w "1"))).
    + intros w. exists (write w "2").
      vm_cast_no_check (eq_refl (Ok (write w "2"))).
Defined.

End ConcreteRuns.
